(** * Geometry core of the bench drawing generators

    A shallow embedding of [svg_bench_drawer.py] (SVG technical drawings) and
    [bench_3d_viewer.py] (Plotly 3D viewer): points, panels, the isometric
    projection, the explode transform, the bounding box of the orthographic
    views, dimension lines, the box mesh and the connection lines.

    Numbers.  The Python code computes with [float] (IEEE 754 binary64) and
    converts [int] operands on the fly.  The definitions are written once
    over an interface [Arith] of the operations the code uses; the instance
    [Binary64] is the arithmetic the code runs on (Rocq's primitive floats,
    round to nearest even), the instance [Integers] is an exact arithmetic
    used where a property depends on the ring laws.  [math.cos], [math.sin],
    [math.atan2], [math.radians] and [math.degrees] belong to the C library
    and stay abstract ([Libm]); that [math.cos] and [math.sin] raise
    [ValueError] at an infinite argument is written out in [Calls].

    Output.  SVG elements are kept as structured values (their numeric
    attributes and labels) instead of the formatted markup strings; the
    Plotly traces likewise. *)

From Stdlib Require Import ZArith List String Bool Lia Ring_theory.
From Stdlib Require Import Floats.
Import ListNotations.

Set Implicit Arguments.
Open Scope string_scope.
Open Scope list_scope.

(* ------------------------------------------------------------------ *)
(** ** Arithmetic interface *)

Declare Scope num_scope.
Delimit Scope num_scope with num.

Class Arith (F : Type) : Type := {
  of_Z : Z -> F;               (* an [int] operand converted to [float] *)
  lit : Z -> positive -> F;    (* the decimal literal n/d, e.g. 35.264 *)
  add : F -> F -> F;
  sub : F -> F -> F;
  mul : F -> F -> F;
  div : F -> F -> F;
  neg : F -> F;
  sqrt : F -> F;               (* math.sqrt *)
  eqb : F -> F -> bool;        (* == *)
  ltb : F -> F -> bool         (* <  *)
}.

Class Libm (F : Type) : Type := {
  cos : F -> F;
  sin : F -> F;
  atan2 : F -> F -> F;
  radians : F -> F;
  degrees : F -> F
}.

(** Python's formatting of a number inside an f-string. *)
Class Format (F : Type) : Type := {
  str : F -> string;       (* f"{v}" *)
  fixed1 : F -> string     (* f"{v:.1f}" *)
}.

Notation "a + b" := (add a b) : num_scope.
Notation "a - b" := (sub a b) : num_scope.
Notation "a * b" := (mul a b) : num_scope.
Notation "a / b" := (div a b) : num_scope.
Notation "- a" := (neg a) : num_scope.
Notation "a =? b" := (eqb a b) : num_scope.
Notation "a <? b" := (ltb a b) : num_scope.
Notation "a >? b" := (ltb b a) : num_scope.

(** Python's [min] and [max] over a non-empty sequence: the first item is
    the candidate, a later item replaces it only when strictly smaller
    (resp. larger).  An empty sequence raises [ValueError]: [None]. *)
Definition py_min {F} `{Arith F} (l : list F) : option F :=
  match l with
  | [] => None
  | a :: r => Some (fold_left (fun best item => if (item <? best)%num then item else best) r a)
  end.

Definition py_max {F} `{Arith F} (l : list F) : option F :=
  match l with
  | [] => None
  | a :: r => Some (fold_left (fun best item => if (item >? best)%num then item else best) r a)
  end.

(* ------------------------------------------------------------------ *)
(** ** class Point3D *)

Module Point3D.
Section Defs.
Context {F : Type} {A : Arith F}.

Record t : Type := mk { x : F; y : F; z : F }.

(** Generated [__eq__] of the dataclass: fields compared with [==]. *)
Definition equal (p q : t) : bool :=
  (x p =? x q)%num && (y p =? y q)%num && (z p =? z q)%num.

Definition translate (self : t) (dx dy dz : F) : t :=
  mk (x self + dx)%num (y self + dy)%num (z self + dz)%num.

Context {M : Libm F}.

Definition rotate_y (self : t) (angle_rad : F) : t :=
  let cos_a := cos angle_rad in
  let sin_a := sin angle_rad in
  mk (x self * cos_a + z self * sin_a)%num
     (y self)
     (- x self * sin_a + z self * cos_a)%num.

Definition rotate_x (self : t) (angle_rad : F) : t :=
  let cos_a := cos angle_rad in
  let sin_a := sin angle_rad in
  mk (x self)
     (y self * cos_a - z self * sin_a)%num
     (y self * sin_a + z self * cos_a)%num.

Definition to_isometric (self : t) (scale : F) : F * F :=
  let p := rotate_y self (radians (of_Z 45)) in
  let p := rotate_x p (radians (lit 35264 1000)) in
  ((x p * scale)%num, (- y p * scale)%num).
End Defs.
Arguments t F : clear implicits.
End Point3D.

(* ------------------------------------------------------------------ *)
(** ** class Panel *)

Module Panel.
Section Defs.
Context {F : Type} {A : Arith F}.

Record t : Type := mk {
  name : string;
  width : F;
  depth : F;
  thickness : F;
  position : Point3D.t F;
  holes : list (Point3D.t F);
  material : string
}.

Definition get_corners (self : t) : list (Point3D.t F) :=
  let '(x, y, z) := (Point3D.x (position self), Point3D.y (position self),
                     Point3D.z (position self)) in
  let '(w, d, t) := (width self, depth self, thickness self) in
  [ Point3D.mk x y z;
    Point3D.mk (x + w)%num y z;
    Point3D.mk (x + w)%num (y + d)%num z;
    Point3D.mk x (y + d)%num z;
    Point3D.mk x y (z + t)%num;
    Point3D.mk (x + w)%num y (z + t)%num;
    Point3D.mk (x + w)%num (y + d)%num (z + t)%num;
    Point3D.mk x (y + d)%num (z + t)%num ].
End Defs.
Arguments t F : clear implicits.
End Panel.

(* ------------------------------------------------------------------ *)
(** ** class SVGDrawing *)

Module SVGDrawing.
Section Defs.
Context {F : Type} {A : Arith F}.

(** One entry of [self.elements]: the attributes that the source formats
    into the markup string of the element. *)
Inductive element : Type :=
| Line (x1 y1 x2 y2 : F) (stroke : string) (stroke_width opacity : F)
       (stroke_dasharray marker_start marker_end : option string)
| Rect (x y width height : F) (fill stroke : string) (stroke_width opacity : F)
| Circle (cx cy r : F) (fill stroke : string) (stroke_width : F)
| Polygon (points : list (F * F)) (fill stroke : string) (stroke_width opacity : F)
| Text (x y : F) (text : string) (font_size : Z) (anchor font_weight fill : string)
| DimensionLabel (x y angle mid_x mid_y : F) (label : string).

Record t : Type := mk {
  width : Z;
  height : Z;
  elements : list element;
  defs : list string
}.

Definition init (width height : Z) : t := mk width height [] [].

Definition add_def (self : t) (def_element : string) : t :=
  mk (width self) (height self) (elements self) (defs self ++ [def_element]).

Definition add_element (self : t) (e : element) : t :=
  mk (width self) (height self) (elements self ++ [e]) (defs self).

Definition line (self : t) (x1 y1 x2 y2 : F) (stroke : string)
    (stroke_width : F) (stroke_dasharray : option string) (opacity : F)
    (marker_start marker_end : option string) : t :=
  add_element self
    (Line x1 y1 x2 y2 stroke stroke_width opacity stroke_dasharray marker_start marker_end).

Definition rect (self : t) (x y width height : F) (fill stroke : string)
    (stroke_width opacity : F) : t :=
  add_element self (Rect x y width height fill stroke stroke_width opacity).

Definition circle (self : t) (cx cy r : F) (fill stroke : string)
    (stroke_width : F) : t :=
  add_element self (Circle cx cy r fill stroke stroke_width).

Definition polygon (self : t) (points : list (F * F)) (fill stroke : string)
    (stroke_width opacity : F) : t :=
  add_element self (Polygon points fill stroke stroke_width opacity).

Definition text (self : t) (x y : F) (text : string) (font_size : Z)
    (anchor font_weight fill : string) : t :=
  add_element self (Text x y text font_size anchor font_weight fill).

Context {M : Libm F}.

(** [dimension_line] returns [None] on both paths; the result here is the
    drawing after the call.  Past the guard [length] is not zero, so the
    two divisions by it cannot raise [ZeroDivisionError]. *)
Definition dimension_line (self : t) (x1 y1 x2 y2 : F) (label : string)
    (offset : F) : t :=
  let dx := (x2 - x1)%num in
  let dy := (y2 - y1)%num in
  let length := sqrt (dx * dx + dy * dy)%num in
  if (length =? of_Z 0)%num then self
  else
    let px := (- dy / length)%num in
    let py := (dx / length)%num in
    let ox1 := (x1 + px * offset)%num in
    let oy1 := (y1 + py * offset)%num in
    let ox2 := (x2 + px * offset)%num in
    let oy2 := (y2 + py * offset)%num in
    let self := line self x1 y1 ox1 oy1 "black" (lit 3 10) None (lit 1 1) None None in
    let self := line self x2 y2 ox2 oy2 "black" (lit 3 10) None (lit 1 1) None None in
    let self := line self ox1 oy1 ox2 oy2 "black" (lit 5 10) None (lit 1 1)
                     (Some "url(#arrowhead-start)") (Some "url(#arrowhead)") in
    let mid_x := ((ox1 + ox2) / of_Z 2)%num in
    let mid_y := ((oy1 + oy2) / of_Z 2)%num in
    let angle := degrees (atan2 dy dx) in
    let angle := if (angle >? of_Z 90)%num || (angle <? of_Z (-90))%num
                 then (angle + of_Z 180)%num else angle in
    add_element self (DimensionLabel mid_x (mid_y - of_Z 3)%num angle mid_x mid_y label).
End Defs.
Arguments t F : clear implicits.
Arguments element F : clear implicits.
End SVGDrawing.

(* ------------------------------------------------------------------ *)
(** ** class BenchDrawing *)

Inductive exception : Type := ValueError | KeyError.

(** What a call leaves behind: the state it reached and either the value
    returned or the exception raised. *)
Inductive outcome (S R : Type) : Type :=
| Returned (s : S) (r : R)
| Raised (s : S) (e : exception).
Arguments Returned {S R} s r.
Arguments Raised {S R} s e.

Module BenchDrawing.
Section Defs.
Context {F : Type} {A : Arith F}.

Record t : Type := mk {
  concept_name : string;
  svg : SVGDrawing.t F
}.

Definition with_svg (self : t) (s : SVGDrawing.t F) : t :=
  mk (concept_name self) s.

(** [corners[k]] for the constant indices the drawing code uses; the list
    has 8 entries, so the index is always in range. *)
Definition item (corners : list (Point3D.t F)) (k : nat) : Point3D.t F :=
  nth k corners (Point3D.mk (of_Z 0) (of_Z 0) (of_Z 0)).

Record bbox : Type := mk_bbox {
  min_x : F; max_x : F; min_y : F; max_y : F; min_z : F; max_z : F
}.

(** Lines 258-267 of [draw_orthographic_views]: the corners of all panels
    are collected, then six [min]/[max] scans run over them.  [min] of an
    empty sequence raises [ValueError]. *)
Definition all_corners (panels : list (Panel.t F)) : list (Point3D.t F) :=
  flat_map Panel.get_corners panels.

Definition bounding_box (panels : list (Panel.t F)) : option bbox :=
  let all_corners := all_corners panels in
  match py_min (map Point3D.x all_corners), py_max (map Point3D.x all_corners),
        py_min (map Point3D.y all_corners), py_max (map Point3D.y all_corners),
        py_min (map Point3D.z all_corners), py_max (map Point3D.z all_corners) with
  | Some a, Some b, Some c, Some d, Some e, Some f => Some (mk_bbox a b c d e f)
  | _, _, _, _, _, _ => None
  end.

(** Body of the top-view loop for one panel. *)
Definition top_view_panel (bb : bbox) (x_start y_offset : Z) (scale : F)
    (s : SVGDrawing.t F) (panel : Panel.t F) : SVGDrawing.t F :=
  let corners := Panel.get_corners panel in
  let pt k := ((of_Z x_start + (Point3D.x (item corners k) - min_x bb) * scale)%num,
               (of_Z y_offset + (Point3D.y (item corners k) - min_y bb) * scale)%num) in
  let rect_points := [pt 0%nat; pt 1%nat; pt 2%nat; pt 3%nat] in
  let s := SVGDrawing.polygon s rect_points "white" "black" (lit 5 10) (lit 1 1) in
  fold_left (fun s hole =>
    let hole_world := Point3D.mk
      (Point3D.x (Panel.position panel) + Point3D.x hole)%num
      (Point3D.y (Panel.position panel) + Point3D.y hole)%num
      (Point3D.z (Panel.position panel) + Point3D.z hole)%num in
    let hx := (of_Z x_start + (Point3D.x hole_world - min_x bb) * scale)%num in
    let hy := (of_Z y_offset + (Point3D.y hole_world - min_y bb) * scale)%num in
    SVGDrawing.circle s hx hy (of_Z 2) "white" "black" (of_Z 1))
    (Panel.holes panel) s.

(** Body of the front-view loop for one panel (XZ plane). *)
Definition front_view_panel (bb : bbox) (front_x y_offset : Z) (scale : F)
    (s : SVGDrawing.t F) (panel : Panel.t F) : SVGDrawing.t F :=
  let corners := Panel.get_corners panel in
  let pt k := ((of_Z front_x + (Point3D.x (item corners k) - min_x bb) * scale)%num,
               (of_Z (y_offset + 250) - (Point3D.z (item corners k) - min_z bb) * scale)%num) in
  SVGDrawing.polygon s [pt 0%nat; pt 1%nat; pt 5%nat; pt 4%nat]
                     "white" "black" (lit 5 10) (lit 1 1).

(** Body of the side-view loop for one panel (YZ plane). *)
Definition side_view_panel (bb : bbox) (side_x y_offset : Z) (scale : F)
    (s : SVGDrawing.t F) (panel : Panel.t F) : SVGDrawing.t F :=
  let corners := Panel.get_corners panel in
  let pt k := ((of_Z side_x + (Point3D.y (item corners k) - min_y bb) * scale)%num,
               (of_Z (y_offset + 250) - (Point3D.z (item corners k) - min_z bb) * scale)%num) in
  SVGDrawing.polygon s [pt 0%nat; pt 3%nat; pt 7%nat; pt 4%nat]
                     "white" "black" (lit 5 10) (lit 1 1).

(** The three views, drawn with the bounding box [bb] and the value of
    [y_offset] reached after the "Top View" caption. *)
Definition draw_views (bb : bbox) (panels : list (Panel.t F)) (y_offset : Z)
    (scale : F) (s : SVGDrawing.t F) : SVGDrawing.t F :=
  let x_start := 100%Z in
  let spacing := 350%Z in
  let s := fold_left (top_view_panel bb x_start y_offset scale) panels s in
  let front_x := (x_start + spacing)%Z in
  let s := SVGDrawing.text s (of_Z (front_x + 50)) (of_Z (y_offset - 20))
                           "Front View" 10 "start" "normal" "black" in
  let s := fold_left (front_view_panel bb front_x y_offset scale) panels s in
  let side_x := (x_start + spacing * 2)%Z in
  let s := SVGDrawing.text s (of_Z (side_x + 50)) (of_Z (y_offset - 20))
                           "Right Side View" 10 "start" "normal" "black" in
  fold_left (side_view_panel bb side_x y_offset scale) panels s.

Definition draw_orthographic_views (self : t) (panels : list (Panel.t F))
    (y_offset : Z) (scale : F) : outcome t Z :=
  let x_start := 100%Z in
  let s := SVGDrawing.text (svg self) (of_Z 50) (of_Z y_offset)
                           "ORTHOGRAPHIC VIEWS" 12 "start" "normal" "black" in
  let y_offset := (y_offset + 25)%Z in
  match bounding_box panels with
  | None => Raised (with_svg self s) ValueError
  | Some bb =>
      let s := SVGDrawing.text s (of_Z (x_start + 50)) (of_Z y_offset)
                               "Top View" 10 "start" "normal" "black" in
      let y_offset := (y_offset + 20)%Z in
      let s := draw_views bb panels y_offset scale s in
      Returned (with_svg self s) (y_offset + 270)%Z
  end.

(** The loop of lines 413-422: one derived panel per source panel, moved
    along Z by [explode_distance * (i - len(panels)//2)]. *)
Definition explode_panel (explode_distance : F) (count : nat)
    (i : nat) (panel : Panel.t F) : Panel.t F :=
  let offset := (explode_distance * of_Z (Z.of_nat i - Z.of_nat count / 2))%num in
  let exploded_pos := Point3D.translate (Panel.position panel) (of_Z 0) (of_Z 0) offset in
  Panel.mk (Panel.name panel) (Panel.width panel) (Panel.depth panel)
           (Panel.thickness panel) exploded_pos (Panel.holes panel)
           (Panel.material panel).

Fixpoint enumerate {X : Type} (i : nat) (l : list X) : list (nat * X) :=
  match l with
  | [] => []
  | a :: r => (i, a) :: enumerate (S i) r
  end.

Definition explode_panels (panels : list (Panel.t F)) (explode_distance : F)
    : list (Panel.t F) :=
  fold_left (fun exploded_panels '(i, panel) =>
               exploded_panels ++ [explode_panel explode_distance (List.length panels) i panel])
            (enumerate 0 panels) [].

(** Lines 455-460: the two 3D points each assembly arrow is drawn between,
    for [i] in [range(len(exploded_panels) - 1)]. *)
Definition arrow_anchors (exploded_panels : list (Panel.t F))
    : list (Point3D.t F * Point3D.t F) :=
  flat_map (fun i =>
              match nth_error exploded_panels i, nth_error exploded_panels (i + 1) with
              | Some a, Some b =>
                  [(item (Panel.get_corners a) 6, item (Panel.get_corners b) 4)]
              | _, _ => []
              end)
           (seq 0 (List.length exploded_panels - 1)).

Context {M : Libm F}.

(** Body of the drawing loop of [draw_exploded_view] for one panel. *)
Definition exploded_panel_faces (x_center y_center : Z) (scale : F)
    (s : SVGDrawing.t F) (panel : Panel.t F) : SVGDrawing.t F :=
  let corners := Panel.get_corners panel in
  let iso_points := map (fun c => Point3D.to_isometric c scale) corners in
  let iso k := nth k iso_points (of_Z 0, of_Z 0) in
  let pt k := ((of_Z x_center + fst (iso k))%num, (of_Z y_center + snd (iso k))%num) in
  let s := SVGDrawing.polygon s [pt 4%nat; pt 5%nat; pt 6%nat; pt 7%nat]
                              "white" "black" (lit 5 10) (lit 1 1) in
  let s := SVGDrawing.polygon s [pt 1%nat; pt 2%nat; pt 6%nat; pt 5%nat]
                              "white" "black" (lit 5 10) (lit 1 1) in
  let label_pos := iso 6%nat in
  SVGDrawing.text s (of_Z x_center + fst label_pos + of_Z 10)%num
                    (of_Z y_center + snd label_pos)%num
                    (Panel.name panel) 8 "start" "normal" "black".

(** Body of the arrow loop: the dashed line between the projections of
    the two anchors. *)
Definition assembly_arrow (x_center y_center : Z) (scale : F)
    (s : SVGDrawing.t F) (anchors : Point3D.t F * Point3D.t F) : SVGDrawing.t F :=
  let '(p1, p2) := anchors in
  let iso1 := Point3D.to_isometric p1 scale in
  let iso2 := Point3D.to_isometric p2 scale in
  SVGDrawing.line s (of_Z x_center + fst iso1)%num (of_Z y_center + snd iso1)%num
                    (of_Z x_center + fst iso2)%num (of_Z y_center + snd iso2)%num
                    "black" (lit 5 10) (Some "2,2") (lit 5 10) None None.

(** The element one round of the arrow loop appends. *)
Definition arrow_element (x_center y_center : Z) (scale : F)
    (anchors : Point3D.t F * Point3D.t F) : SVGDrawing.element F :=
  let iso1 := Point3D.to_isometric (fst anchors) scale in
  let iso2 := Point3D.to_isometric (snd anchors) scale in
  SVGDrawing.Line (of_Z x_center + fst iso1)%num (of_Z y_center + snd iso1)%num
                  (of_Z x_center + fst iso2)%num (of_Z y_center + snd iso2)%num
                  "black" (lit 5 10) (lit 5 10) (Some "2,2") None None.

Definition draw_exploded_view (self : t) (panels : list (Panel.t F))
    (y_offset : Z) (scale explode_distance : F) : t * Z :=
  let s := SVGDrawing.text (svg self) (of_Z 50) (of_Z y_offset)
                           "EXPLODED ASSEMBLY" 12 "start" "normal" "black" in
  let y_offset := (y_offset + 25)%Z in
  let x_center := 400%Z in
  let y_center := (y_offset + 150)%Z in
  let exploded_panels := explode_panels panels explode_distance in
  let s := fold_left (exploded_panel_faces x_center y_center scale) exploded_panels s in
  let s := fold_left (assembly_arrow x_center y_center scale)
                     (arrow_anchors exploded_panels) s in
  (with_svg self s, (y_offset + 320)%Z).

Definition draw_title_block (self : t) (y_offset : Z) : t * Z :=
  let s := SVGDrawing.text (svg self) (of_Z 50) (of_Z y_offset) (concept_name self)
                           18 "start" "normal" "black" in
  let s := SVGDrawing.text s (of_Z 50) (of_Z (y_offset + 22))
                           "Sheet Metal Bench - SendCutSend Fabrication"
                           12 "start" "normal" "black" in
  let s := SVGDrawing.line s (of_Z 50) (of_Z (y_offset + 32)) (of_Z 1150)
                           (of_Z (y_offset + 32)) "black" (lit 5 10) None (lit 1 1)
                           None None in
  (with_svg self s, (y_offset + 50)%Z).

Context {Fm : Format F}.

(** The inch mark that closes the dimension texts. *)
Definition inch : string := String (Ascii.ascii_of_nat 34) EmptyString.

(** Body of the drawing loop of [draw_isometric_view] for one panel. *)
Definition isometric_panel_faces (x_center y_center : Z) (scale : F)
    (s : SVGDrawing.t F) (panel : Panel.t F) : SVGDrawing.t F :=
  let corners := Panel.get_corners panel in
  let iso_points := map (fun c => Point3D.to_isometric c scale) corners in
  let iso k := nth k iso_points (of_Z 0, of_Z 0) in
  let pt k := ((of_Z x_center + fst (iso k))%num, (of_Z y_center + snd (iso k))%num) in
  let s := SVGDrawing.polygon s [pt 0%nat; pt 1%nat; pt 2%nat; pt 3%nat]
                              "white" "black" (lit 5 10) (lit 1 1) in
  let s := SVGDrawing.polygon s [pt 4%nat; pt 5%nat; pt 6%nat; pt 7%nat]
                              "white" "black" (lit 5 10) (lit 1 1) in
  SVGDrawing.polygon s [pt 1%nat; pt 2%nat; pt 6%nat; pt 5%nat]
                     "white" "black" (lit 5 10) (lit 1 1).

(** Body of the materials loop: the legend entry of panel [i]. *)
Definition material_note (x_center materials_y : Z) (s : SVGDrawing.t F)
    (ip : nat * Panel.t F) : SVGDrawing.t F :=
  let '(i, panel) := ip in
  SVGDrawing.text s (of_Z (x_center + 250)) (of_Z (materials_y + 16 + Z.of_nat i * 14))
    (Panel.name panel ++ ": " ++ Panel.material panel ++ " "
       ++ str (Panel.thickness panel) ++ inch)%string
    9 "start" "normal" "black".

Definition draw_isometric_view (self : t) (panels : list (Panel.t F))
    (y_offset : Z) (scale : F) : t * Z :=
  let s := SVGDrawing.text (svg self) (of_Z 50) (of_Z y_offset)
                           "ISOMETRIC VIEW" 12 "start" "normal" "black" in
  let y_offset := (y_offset + 25)%Z in
  let x_center := 400%Z in
  let y_center := (y_offset + 150)%Z in
  let s := fold_left (isometric_panel_faces x_center y_center scale) panels s in
  let materials_y := (y_center + 200)%Z in
  let s := SVGDrawing.text s (of_Z (x_center + 250)) (of_Z materials_y)
                           "Materials" 10 "start" "normal" "black" in
  let s := fold_left (material_note x_center materials_y) (enumerate 0 panels) s in
  (with_svg self s, (y_offset + 320)%Z).

(** In [draw_flat_patterns] the variable [y_pos] holds an [int] until a
    panel has been placed and again after each column break, a [float]
    otherwise. *)
Definition to_float (v : Z + F) : F :=
  match v with inl n => of_Z n | inr f => f end.

Definition minus_int (v : Z + F) (k : Z) : Z + F :=
  match v with inl n => inl (n - k)%Z | inr f => inr (f - of_Z k)%num end.

(** [y_pos > 1400] *)
Definition past_limit (v : Z + F) : bool :=
  match v with inl n => (1400 <? n)%Z | inr f => (of_Z 1400 <? f)%num end.

(** The text of the hole dimension: O-slash (two UTF-8 bytes), 0.25 and
    the inch mark. *)
Definition hole_label : string :=
  String (Ascii.ascii_of_nat 195) (String (Ascii.ascii_of_nat 152) ("0.25" ++ inch)).

Definition flat_pattern_hole (px : Z) (py : Z + F) (scale : F)
    (s : SVGDrawing.t F) (hole : Point3D.t F) : SVGDrawing.t F :=
  let hx := (of_Z px + Point3D.x hole * scale)%num in
  let hy := (to_float py + Point3D.y hole * scale)%num in
  let s := SVGDrawing.circle s hx hy (of_Z 2) "white" "black" (lit 5 10) in
  SVGDrawing.text s (hx + of_Z 6)%num (hy + of_Z 3)%num hole_label
                  7 "start" "normal" "black".

(** Body of the panel loop of [draw_flat_patterns]; the loop variables are
    the drawing, [x_offset] and [y_pos]. *)
Definition flat_pattern_panel (y_offset : Z) (scale : F)
    (state : SVGDrawing.t F * Z * (Z + F)) (panel : Panel.t F)
    : SVGDrawing.t F * Z * (Z + F) :=
  let '(s, x_offset, y_pos) := state in
  let px := x_offset in
  let py := y_pos in
  let pw := (Panel.width panel * scale)%num in
  let ph := (Panel.depth panel * scale)%num in
  let s := SVGDrawing.rect s (of_Z px) (to_float py) pw ph "white" "black"
                           (of_Z 1) (lit 1 1) in
  let s := fold_left (flat_pattern_hole px py scale) (Panel.holes panel) s in
  let s := SVGDrawing.dimension_line s (of_Z px) (to_float py) (of_Z px + pw)%num
             (to_float py) (fixed1 (Panel.width panel) ++ inch)%string (of_Z (-15)) in
  let s := SVGDrawing.dimension_line s (of_Z px) (to_float py) (of_Z px)
             (to_float py + ph)%num (fixed1 (Panel.depth panel) ++ inch)%string
             (of_Z (-15)) in
  let s := SVGDrawing.text s (of_Z px + pw / of_Z 2)%num (to_float (minus_int py 25))
                           (Panel.name panel) 10 "middle" "normal" "black" in
  let s := SVGDrawing.text s (of_Z px + pw / of_Z 2)%num (to_float (minus_int py 14))
             (Panel.material panel ++ " - " ++ str (Panel.thickness panel) ++ inch
                ++ " thick")%string
             8 "middle" "normal" "black" in
  let y_pos := inr (to_float y_pos + (ph + of_Z 80))%num in
  if past_limit y_pos then (s, (x_offset + 400)%Z, inl y_offset)
  else (s, x_offset, y_pos).

Definition draw_flat_patterns (self : t) (panels : list (Panel.t F))
    (y_offset : Z) (scale : F) : t * F :=
  let s := SVGDrawing.text (svg self) (of_Z 50) (of_Z y_offset)
                           "FLAT PATTERNS" 12 "start" "normal" "black" in
  let s := SVGDrawing.text s (of_Z 50) (of_Z (y_offset + 16))
                           "For SendCutSend DXF Export" 9 "start" "normal" "black" in
  let y_offset := (y_offset + 35)%Z in
  let x_offset := 100%Z in
  let y_pos : Z + F := inl y_offset in
  let '(s, _, y_pos) :=
    fold_left (flat_pattern_panel y_offset scale) panels (s, x_offset, y_pos) in
  let floor := (y_offset + 300)%Z in
  (with_svg self s,
   match y_pos with
   | inl n => of_Z (if (n <? floor)%Z then floor else n)
   | inr f => if (f <? of_Z floor)%num then of_Z floor else f
   end).

(** The drawing steps of the main block (lines 657-661), for a drawing
    [self] and a panel list, with the default arguments spelled out. *)
Definition draw_all (self : t) (panels : list (Panel.t F)) : outcome t F :=
  let '(self, y) := draw_title_block self 50 in
  match draw_orthographic_views self panels y (lit 20 10) with
  | Raised self e => Raised self e
  | Returned self y =>
      let '(self, y) := draw_isometric_view self panels y (lit 25 10) in
      let '(self, y) := draw_exploded_view self panels y (lit 25 10) (lit 50 10) in
      let '(self, y) := draw_flat_patterns self panels y (lit 15 10) in
      Returned self y
  end.
End Defs.
Arguments t F : clear implicits.
Arguments bbox F : clear implicits.
End BenchDrawing.

(* ------------------------------------------------------------------ *)
(** ** The explode loop on the object store

    Python panels are objects reached through references; the loop of
    [draw_exploded_view] reads each source panel and allocates a new
    [Panel].  [Heap.t] lists the panel objects by address.  The [holes]
    list of a derived panel is the very list object of its source panel;
    neither is written to. *)

Module Heap.
Section Defs.
Context {F : Type} {A : Arith F}.

Definition ref : Type := nat.
Definition t : Type := list (Panel.t F).

Definition get (h : t) (r : ref) : option (Panel.t F) := nth_error h r.

Definition alloc (h : t) (p : Panel.t F) : t * ref := (h ++ [p], List.length h).

Fixpoint explode_loop (h : t) (explode_distance : F) (count i : nat)
    (panels exploded_panels : list ref) : option (t * list ref) :=
  match panels with
  | [] => Some (h, exploded_panels)
  | r :: rest =>
      match get h r with
      | None => None
      | Some panel =>
          let '(h', r') :=
            alloc h (BenchDrawing.explode_panel explode_distance count i panel) in
          explode_loop h' explode_distance count (S i) rest (exploded_panels ++ [r'])
      end
  end.

Definition explode_refs (h : t) (panels : list ref) (explode_distance : F)
    : option (t * list ref) :=
  explode_loop h explode_distance (List.length panels) 0 panels [].

(** The panels a list of references denotes in a store. *)
Fixpoint deref (h : t) (refs : list ref) : option (list (Panel.t F)) :=
  match refs with
  | [] => Some []
  | r :: rest =>
      match get h r, deref h rest with
      | Some p, Some ps => Some (p :: ps)
      | _, _ => None
      end
  end.
End Defs.
Arguments t F : clear implicits.
End Heap.

(* ------------------------------------------------------------------ *)
(** ** bench_3d_viewer.py *)

Module Mesh.
Section Defs.
Context {F : Type}.

(** The dictionary returned by [create_box_mesh]; ['name'] is added by
    the caller afterwards. *)
Record t : Type := mk {
  x : list F;
  y : list F;
  z : list F;
  i : list nat;
  j : list nat;
  k : list nat;
  color : string;
  vertices : list (list F);
  name : option string
}.

Definition set_name (m : t) (n : string) : t :=
  mk (x m) (y m) (z m) (i m) (j m) (k m) (color m) (vertices m) (Some n).
End Defs.
Arguments t F : clear implicits.
End Mesh.

Module Viewer.
Section Defs.
Context {F : Type} {A : Arith F}.

(** [vertices[:, c]] *)
Definition column (c : nat) (vertices : list (list F)) : list F :=
  map (fun row => nth c row (of_Z 0)) vertices.

Definition create_box_mesh (x y z width depth thickness : F) (color : string)
    : Mesh.t F :=
  let vertices :=
    [ [x; y; z];
      [(x + width)%num; y; z];
      [(x + width)%num; (y + depth)%num; z];
      [x; (y + depth)%num; z];
      [x; y; (z + thickness)%num];
      [(x + width)%num; y; (z + thickness)%num];
      [(x + width)%num; (y + depth)%num; (z + thickness)%num];
      [x; (y + depth)%num; (z + thickness)%num] ] in
  let i := [0; 0; 1; 1; 2; 2; 3; 3; 4; 4; 5; 5;
            0; 0; 1; 1; 4; 4; 5; 5; 2; 2; 3; 3]%nat in
  let j := [1; 1; 2; 2; 3; 3; 0; 0; 5; 5; 6; 6;
            4; 4; 5; 5; 7; 7; 6; 6; 6; 6; 7; 7]%nat in
  let k := [4; 2; 5; 6; 6; 7; 7; 4; 6; 7; 7; 4;
            1; 3; 0; 2; 3; 0; 1; 4; 3; 7; 0; 4]%nat in
  Mesh.mk (column 0 vertices) (column 1 vertices) (column 2 vertices)
          i j k color vertices None.

(** The triangles of a mesh: the index triples read off the three
    parallel arrays, as the mesh renderer does. *)
Fixpoint triangles (i j k : list nat) : list (nat * nat * nat) :=
  match i, j, k with
  | a :: i', b :: j', c :: k' => (a, b, c) :: triangles i' j' k'
  | _, _, _ => []
  end.

(** [np.mean(vertices, axis=0)]: per column, the sum of the rows divided
    by the number of rows. *)
Definition mean_axis0 (vertices : list (list F)) : list F :=
  let ncols := match vertices with [] => 0%nat | row :: _ => List.length row end in
  map (fun c => (fold_left add (column c vertices) (of_Z 0)
                 / of_Z (Z.of_nat (List.length vertices)))%num)
      (seq 0 ncols).

Inductive trace : Type :=
| Mesh3d (x y z : list F) (i j k : list nat) (color : string) (opacity : F)
         (name : string) (visible : bool)
| Scatter3d (x y z : list F) (visible : bool).

Definition is_line (t : trace) : bool :=
  match t with Scatter3d _ _ _ _ => true | Mesh3d _ _ _ _ _ _ _ _ _ _ => false end.

(** The dashed segment between two centres, as [go.Scatter3d] receives
    it: the x, y and z pairs of the two end points. *)
Definition segment (p1_center p2_center : list F) : trace :=
  let at_ l n := nth n l (of_Z 0) in
  Scatter3d [at_ p1_center 0%nat; at_ p2_center 0%nat]
            [at_ p1_center 1%nat; at_ p2_center 1%nat]
            [at_ p1_center 2%nat; at_ p2_center 2%nat] false.

Record figure : Type := mk_figure {
  data : list trace;
  assembled_visible : list bool;
  exploded_visible : list bool
}.

(** One of the two mesh loops; [panel['name']] raises [KeyError] when the
    key was never set. *)
Fixpoint mesh_traces (suffix : string) (visible : bool) (panels : list (Mesh.t F))
    : option (list trace) :=
  match panels with
  | [] => Some []
  | panel :: rest =>
      match Mesh.name panel, mesh_traces suffix visible rest with
      | Some n, Some ts =>
          Some (Mesh3d (Mesh.x panel) (Mesh.y panel) (Mesh.z panel)
                       (Mesh.i panel) (Mesh.j panel) (Mesh.k panel)
                       (Mesh.color panel) (lit 1 1) (n ++ suffix)%string visible :: ts)
      | _, _ => None
      end
  end.

(** Lines 236-251: the connection lines of the exploded state, as pairs
    of panel indices. *)
Definition connections (exploded_panels : list (Mesh.t F)) : list (nat * nat) :=
  if Nat.eqb (List.length exploded_panels) 3 then [(0, 1); (0, 2)]%nat else [].

Definition connection_line (exploded_panels : list (Mesh.t F)) (c : nat * nat)
    : list trace :=
  let '(idx1, idx2) := c in
  match nth_error exploded_panels idx1, nth_error exploded_panels idx2 with
  | Some m1, Some m2 =>
      let p1_center := mean_axis0 (Mesh.vertices m1) in
      let p2_center := mean_axis0 (Mesh.vertices m2) in
      let at_ l n := nth n l (of_Z 0) in
      [ Scatter3d [at_ p1_center 0%nat; at_ p2_center 0%nat]
                  [at_ p1_center 1%nat; at_ p2_center 1%nat]
                  [at_ p1_center 2%nat; at_ p2_center 2%nat] false ]
  | _, _ => []
  end.

Definition connection_lines (exploded_panels : list (Mesh.t F)) : list trace :=
  flat_map (connection_line exploded_panels) (connections exploded_panels).

Definition create_interactive_viewer (concept_name : string)
    (assembled_panels exploded_panels : list (Mesh.t F)) : exception + figure :=
  match mesh_traces "" true assembled_panels,
        mesh_traces " (Exploded)" false exploded_panels with
  | Some ta, Some te =>
      let data := ta ++ te ++ connection_lines exploded_panels in
      let n_assembled := List.length assembled_panels in
      let n_exploded := List.length exploded_panels in
      let n_lines := (List.length data - n_assembled - n_exploded)%nat in
      inr (mk_figure data
             (repeat true n_assembled ++ repeat false n_exploded ++ repeat false n_lines)
             (repeat false n_assembled ++ repeat true n_exploded ++ repeat true n_lines))
  | _, _ => inl KeyError
  end.

Definition create_concept_4_assembled : list (Mesh.t F) :=
  let seat := create_box_mesh (of_Z 0) (of_Z 0) (lit 160 10) (lit 600 10)
                              (lit 110 10) (lit 125 1000) "white" in
  let seat := Mesh.set_name seat "Seat Panel" in
  let left_leg := create_box_mesh (of_Z 0) (of_Z 0) (of_Z 0) (lit 110 10)
                                  (lit 160 10) (lit 25 100) "white" in
  let left_leg := Mesh.set_name left_leg "Left Leg" in
  let right_leg := create_box_mesh (lit 490 10) (of_Z 0) (of_Z 0) (lit 110 10)
                                   (lit 160 10) (lit 25 100) "white" in
  let right_leg := Mesh.set_name right_leg "Right Leg" in
  [seat; left_leg; right_leg].

Definition create_concept_4_exploded : list (Mesh.t F) :=
  let explode_offset := lit 80 10 in
  let seat := create_box_mesh (of_Z 0) (of_Z 0) (lit 160 10 + explode_offset)%num
                              (lit 600 10) (lit 110 10) (lit 125 1000) "#d4d4d4" in
  let seat := Mesh.set_name seat "Seat Panel" in
  let left_leg := create_box_mesh (- explode_offset)%num (of_Z 0) (of_Z 0)
                                  (lit 110 10) (lit 160 10) (lit 25 100) "#a0a0a0" in
  let left_leg := Mesh.set_name left_leg "Left Leg" in
  let right_leg := create_box_mesh (lit 490 10 + explode_offset)%num (of_Z 0) (of_Z 0)
                                   (lit 110 10) (lit 160 10) (lit 25 100) "white" in
  let right_leg := Mesh.set_name right_leg "Right Leg" in
  [seat; left_leg; right_leg].

(** The [visible] flag a trace is created with. *)
Definition trace_visible (t : trace) : bool :=
  match t with
  | Scatter3d _ _ _ v => v
  | Mesh3d _ _ _ _ _ _ _ _ _ v => v
  end.

(** The [name] a trace is created with; the connection lines are given
    none. *)
Definition trace_name (t : trace) : option string :=
  match t with
  | Scatter3d _ _ _ _ => None
  | Mesh3d _ _ _ _ _ _ _ _ n _ => Some n
  end.

(** [l[i]] for a Python list: a negative index counts from the end, an
    index outside [-len(l), len(l)) raises [IndexError] ([None]). *)
Definition py_index {X : Type} (l : list X) (i : Z) : option X :=
  let n := Z.of_nat (List.length l) in
  if (0 <=? i)%Z then (if (i <? n)%Z then nth_error l (Z.to_nat i) else None)
  else if (- n <=? i)%Z then nth_error l (Z.to_nat (i + n)) else None.

(** [add_connection_lines]: the traces of the figure after the call, and
    whether the call returned or stopped on an [IndexError]. *)
Inductive lines_outcome : Type :=
| LinesAdded (data : list trace)
| IndexError (data : list trace).

Fixpoint add_connection_lines (fig : list trace) (panels : list (Mesh.t F))
    (connections : list (Z * Z)) : lines_outcome :=
  match connections with
  | [] => LinesAdded fig
  | (idx1, idx2) :: rest =>
      match py_index panels idx1 with
      | None => IndexError fig
      | Some m1 =>
          let p1_center := mean_axis0 (Mesh.vertices m1) in
          match py_index panels idx2 with
          | None => IndexError fig
          | Some m2 =>
              let p2_center := mean_axis0 (Mesh.vertices m2) in
              let at_ l n := nth n l (of_Z 0) in
              add_connection_lines
                (fig ++ [ Scatter3d [at_ p1_center 0%nat; at_ p2_center 0%nat]
                                    [at_ p1_center 1%nat; at_ p2_center 1%nat]
                                    [at_ p1_center 2%nat; at_ p2_center 2%nat] true ])
                panels rest
          end
      end
  end.

(** The trace one pass of the loop of [add_connection_lines] adds for the
    pair [(idx1, idx2)], when both look-ups succeed. *)
Definition connection_trace (panels : list (Mesh.t F)) (c : Z * Z) : option trace :=
  let '(idx1, idx2) := c in
  match py_index panels idx1, py_index panels idx2 with
  | Some m1, Some m2 =>
      let p1_center := mean_axis0 (Mesh.vertices m1) in
      let p2_center := mean_axis0 (Mesh.vertices m2) in
      let at_ l n := nth n l (of_Z 0) in
      Some (Scatter3d [at_ p1_center 0%nat; at_ p2_center 0%nat]
                      [at_ p1_center 1%nat; at_ p2_center 1%nat]
                      [at_ p1_center 2%nat; at_ p2_center 2%nat] true)
  | _, _ => None
  end.
End Defs.
Arguments trace F : clear implicits.
Arguments figure F : clear implicits.
Arguments lines_outcome F : clear implicits.
End Viewer.

(* ------------------------------------------------------------------ *)
(** ** The arithmetic of the code: binary64 *)

(** [float(n)] for a Python [int]: the nearest binary64, ties to even. *)
Definition float_of_Z (n : Z) : float :=
  SF2Prim (binary_normalize prec emax n 0 false).

#[global] Instance Binary64 : Arith float := {|
  of_Z := float_of_Z;
  lit n d := PrimFloat.div (float_of_Z n) (float_of_Z (Zpos d));
  add := PrimFloat.add;
  sub := PrimFloat.sub;
  mul := PrimFloat.mul;
  div := PrimFloat.div;
  neg := PrimFloat.opp;
  sqrt := PrimFloat.sqrt;
  eqb := PrimFloat.eqb;
  ltb := PrimFloat.ltb
|}.

(** An exact arithmetic: the ring of integers (quotients and roots
    truncated). *)
#[global] Instance Integers : Arith Z := {|
  of_Z n := n;
  lit n d := Z.div n (Zpos d);
  add := Z.add;
  sub := Z.sub;
  mul := Z.mul;
  div := Z.div;
  neg := Z.opp;
  sqrt := Z.sqrt;
  eqb := Z.eqb;
  ltb := Z.ltb
|}.

(** The SVG generator's panel lists. *)
Definition create_concept_4_slab_legs {F} `{Arith F} : list (Panel.t F) :=
  let P a b c := Point3D.mk (of_Z a) (of_Z b) (of_Z c) in
  let seat := Panel.mk "Seat Panel" (lit 600 10) (lit 110 10) (lit 125 1000)
                (Point3D.mk (of_Z 0) (of_Z 0) (lit 160 10))
                [P 2 2 0; P 2 9 0; P 9 2 0; P 9 9 0;
                 P 51 2 0; P 51 9 0; P 58 2 0; P 58 9 0]%Z
                "304 Stainless Steel" in
  let left_leg := Panel.mk "Left Leg" (lit 110 10) (lit 160 10) (lit 250 1000)
                (P 0 0 0)%Z
                [P 2 14 0; P 2 14 0; P 9 14 0; P 9 14 0]%Z
                "304 Stainless Steel" in
  let right_leg := Panel.mk "Right Leg" (lit 110 10) (lit 160 10) (lit 250 1000)
                (Point3D.mk (lit 490 10) (of_Z 0) (of_Z 0))
                [P 2 14 0; P 2 14 0; P 9 14 0; P 9 14 0]%Z
                "304 Stainless Steel" in
  [seat; left_leg; right_leg].

(** Three panels at height 0.1, exploded with the default distance 5.0. *)
Definition three_panels_at_tenth : list (Panel.t float) :=
  let panel name := Panel.mk name (of_Z 1) (of_Z 1) (of_Z 1)
                      (Point3D.mk (of_Z 0) (of_Z 0) (lit 1 10)) [] "304 Stainless" in
  [panel "A"; panel "B"; panel "C"].

(** Three panels at height 1, for a large explode distance. *)
Definition three_panels_at_one : list (Panel.t float) :=
  let panel name := Panel.mk name (of_Z 1) (of_Z 1) (of_Z 1)
                      (Point3D.mk (of_Z 0) (of_Z 0) (of_Z 1)) [] "304 Stainless" in
  [panel "A"; panel "B"; panel "C"].

(** The two-panel assembly of the specification: boxes spanning
    (0,0,0)-(10,5,2) and (20,0,0)-(30,5,2). *)
Definition two_panel_assembly : list (Panel.t float) :=
  [ Panel.mk "P1" (of_Z 10) (of_Z 5) (of_Z 2) (Point3D.mk (of_Z 0) (of_Z 0) (of_Z 0))
             [] "304 Stainless";
    Panel.mk "P2" (of_Z 10) (of_Z 5) (of_Z 2) (Point3D.mk (of_Z 20) (of_Z 0) (of_Z 0))
             [] "304 Stainless" ].

(** Any functions stand in for the C library where a statement holds for
    every [Libm]. *)
Definition libm_identity : Libm float := {|
  cos a := a; sin a := a; atan2 a _ := a; radians a := a; degrees a := a
|}.

(** Three panels with whole-number fields, for the arithmetic of the
    integers. *)
Definition integer_panels : list (Panel.t Z) :=
  [ Panel.mk "Seat Panel" 60%Z 11%Z 1%Z (Point3D.mk 0%Z 0%Z 16%Z) [] "304 Stainless Steel";
    Panel.mk "Left Leg" 11%Z 16%Z 1%Z (Point3D.mk 0%Z 0%Z 0%Z) [] "304 Stainless Steel";
    Panel.mk "Right Leg" 11%Z 16%Z 1%Z (Point3D.mk 49%Z 0%Z 0%Z) [] "304 Stainless Steel" ].

(* ------------------------------------------------------------------ *)
(** ** The rotations as calls

    [math.cos] and [math.sin] do not return for every [float]: an infinite
    argument raises [ValueError] ("math domain error"); a finite argument
    and NaN give a result.  [Point3D.rotate_y] and [Point3D.rotate_x] above
    are the points the two methods build once both library calls have
    returned; here are the methods with the calls that can raise. *)

Module Calls.
Section Defs.
Context {M : Libm float}.

Definition math_cos (a : float) : exception + float :=
  if is_infinity a then inl ValueError else inr (cos a).

Definition math_sin (a : float) : exception + float :=
  if is_infinity a then inl ValueError else inr (sin a).

Definition rotate_y (self : Point3D.t float) (angle_rad : float)
    : exception + Point3D.t float :=
  match math_cos angle_rad with
  | inl e => inl e
  | inr cos_a =>
      match math_sin angle_rad with
      | inl e => inl e
      | inr sin_a =>
          inr (Point3D.mk
                 (Point3D.x self * cos_a + Point3D.z self * sin_a)%num
                 (Point3D.y self)
                 (- Point3D.x self * sin_a + Point3D.z self * cos_a)%num)
      end
  end.

Definition rotate_x (self : Point3D.t float) (angle_rad : float)
    : exception + Point3D.t float :=
  match math_cos angle_rad with
  | inl e => inl e
  | inr cos_a =>
      match math_sin angle_rad with
      | inl e => inl e
      | inr sin_a =>
          inr (Point3D.mk
                 (Point3D.x self)
                 (Point3D.y self * cos_a - Point3D.z self * sin_a)%num
                 (Point3D.y self * sin_a + Point3D.z self * cos_a)%num)
      end
  end.
End Defs.
End Calls.

(* ------------------------------------------------------------------ *)
(** ** What the orthographic views draw

    The elements of the three views written out panel by panel, all
    measured from the minimum corner of one box [bb]: the top view shows
    corners 0, 1, 2, 3 in the XY plane and the holes, the front view
    corners 0, 1, 5, 4 in the XZ plane, the side view corners 0, 3, 7, 4
    in the YZ plane (Z pointing up the page). *)

Module Views.
Section Defs.
Context {F : Type} {A : Arith F}.

Definition top_outline (bb : BenchDrawing.bbox F) (scale : F) (y0 : Z)
    (p : Panel.t F) : SVGDrawing.element F :=
  let '(x, y) := (Point3D.x (Panel.position p), Point3D.y (Panel.position p)) in
  let '(w, d) := (Panel.width p, Panel.depth p) in
  let X v := (of_Z 100 + (v - BenchDrawing.min_x bb) * scale)%num in
  let Y v := (of_Z y0 + (v - BenchDrawing.min_y bb) * scale)%num in
  SVGDrawing.Polygon [ (X x, Y y); (X (x + w)%num, Y y);
                       (X (x + w)%num, Y (y + d)%num); (X x, Y (y + d)%num) ]
                     "white" "black" (lit 5 10) (lit 1 1).

Definition hole_circle (bb : BenchDrawing.bbox F) (scale : F) (y0 : Z)
    (p : Panel.t F) (hole : Point3D.t F) : SVGDrawing.element F :=
  SVGDrawing.Circle
    (of_Z 100 + (Point3D.x (Panel.position p) + Point3D.x hole - BenchDrawing.min_x bb)
                * scale)%num
    (of_Z y0 + (Point3D.y (Panel.position p) + Point3D.y hole - BenchDrawing.min_y bb)
               * scale)%num
    (of_Z 2) "white" "black" (of_Z 1).

Definition front_outline (bb : BenchDrawing.bbox F) (scale : F) (y0 : Z)
    (p : Panel.t F) : SVGDrawing.element F :=
  let '(x, z) := (Point3D.x (Panel.position p), Point3D.z (Panel.position p)) in
  let '(w, t) := (Panel.width p, Panel.thickness p) in
  let X v := (of_Z 450 + (v - BenchDrawing.min_x bb) * scale)%num in
  let Y v := (of_Z (y0 + 250) - (v - BenchDrawing.min_z bb) * scale)%num in
  SVGDrawing.Polygon [ (X x, Y z); (X (x + w)%num, Y z);
                       (X (x + w)%num, Y (z + t)%num); (X x, Y (z + t)%num) ]
                     "white" "black" (lit 5 10) (lit 1 1).

Definition side_outline (bb : BenchDrawing.bbox F) (scale : F) (y0 : Z)
    (p : Panel.t F) : SVGDrawing.element F :=
  let '(y, z) := (Point3D.y (Panel.position p), Point3D.z (Panel.position p)) in
  let '(d, t) := (Panel.depth p, Panel.thickness p) in
  let X v := (of_Z 800 + (v - BenchDrawing.min_y bb) * scale)%num in
  let Y v := (of_Z (y0 + 250) - (v - BenchDrawing.min_z bb) * scale)%num in
  SVGDrawing.Polygon [ (X y, Y z); (X (y + d)%num, Y z);
                       (X (y + d)%num, Y (z + t)%num); (X y, Y (z + t)%num) ]
                     "white" "black" (lit 5 10) (lit 1 1).

Definition caption (x y : Z) (text : string) (font_size : Z) : SVGDrawing.element F :=
  SVGDrawing.Text (of_Z x) (of_Z y) text font_size "start" "normal" "black".

(** Everything [draw_orthographic_views] adds when called with [y_offset]
    on panels whose box is [bb]. *)
Definition orthographic_elements (bb : BenchDrawing.bbox F)
    (panels : list (Panel.t F)) (y_offset : Z) (scale : F)
    : list (SVGDrawing.element F) :=
  let y0 := (y_offset + 45)%Z in
  [ caption 50 y_offset "ORTHOGRAPHIC VIEWS" 12;
    caption 150 (y_offset + 25) "Top View" 10 ]
  ++ flat_map (fun p => top_outline bb scale y0 p
                        :: map (hole_circle bb scale y0 p) (Panel.holes p)) panels
  ++ [ caption 500 (y_offset + 25) "Front View" 10 ]
  ++ map (front_outline bb scale y0) panels
  ++ [ caption 850 (y_offset + 25) "Right Side View" 10 ]
  ++ map (side_outline bb scale y0) panels.
End Defs.
End Views.

(* ------------------------------------------------------------------ *)
(** ** Notions taken from the specification *)

Module Spec.
Section Defs.
Context {F : Type} {A : Arith F}.

(** The standard right-handed rotation about the Y axis, given the cosine
    [c] and sine [s] of the angle:
    [x' = x c + z s], [y' = y], [z' = -x s + z c]. *)
Definition rot_y (c s : F) (p : F * F * F) : F * F * F :=
  let '(x, y, z) := p in ((x * c + z * s)%num, y, (- x * s + z * c)%num).

(** The standard right-handed rotation about the X axis:
    [x' = x], [y' = y c - z s], [z' = y s + z c]. *)
Definition rot_x (c s : F) (p : F * F * F) : F * F * F :=
  let '(x, y, z) := p in (x, (y * c - z * s)%num, (y * s + z * c)%num).

(** The same two rotations as matrices (by rows) acting on column
    vectors: [Ry] and [Rx] of the textbooks. *)
Definition Ry (c s : F) : (F * F * F) * (F * F * F) * (F * F * F) :=
  ((c, of_Z 0, s), (of_Z 0, of_Z 1, of_Z 0), ((- s)%num, of_Z 0, c)).

Definition Rx (c s : F) : (F * F * F) * (F * F * F) * (F * F * F) :=
  ((of_Z 1, of_Z 0, of_Z 0), (of_Z 0, c, (- s)%num), (of_Z 0, s, c)).

Definition mat_vec (m : (F * F * F) * (F * F * F) * (F * F * F)) (v : F * F * F)
    : F * F * F :=
  let '(r1, r2, r3) := m in
  let '(x, y, z) := v in
  let dot (r : F * F * F) := let '(a, b, c) := r in (a * x + b * y + c * z)%num in
  (dot r1, dot r2, dot r3).

(** Screen coordinates of a rotated point: Y flipped. *)
Definition screen (scale : F) (p : F * F * F) : F * F :=
  let '(x, y, _) := p in ((x * scale)%num, (- y * scale)%num).

(** Centroid of a panel: the mean of its 8 corners, coordinate by
    coordinate. *)
Definition mean (l : list F) : F :=
  (fold_left add l (of_Z 0) / of_Z (Z.of_nat (List.length l)))%num.

Definition centroid (corners : list (Point3D.t F)) : Point3D.t F :=
  Point3D.mk (mean (map Point3D.x corners)) (mean (map Point3D.y corners))
             (mean (map Point3D.z corners)).

(** A triangle lies in a face when its three indices are corners of the
    face. *)
Definition in_face (face : list nat) (tri : nat * nat * nat) : bool :=
  let '(a, b, c) := tri in
  existsb (Nat.eqb a) face && existsb (Nat.eqb b) face && existsb (Nat.eqb c) face.

(** The six faces of a box in the corner indexing of [get_corners]. *)
Definition faces : list (list nat) :=
  [ [0; 1; 2; 3]; [4; 5; 6; 7]; [0; 1; 5; 4];
    [2; 3; 7; 6]; [0; 3; 7; 4]; [1; 2; 6; 5] ]%nat.

(** A segment joins the centroids of two panels of the list. *)
Definition joins_centroids (panels : list (Panel.t F))
    (segment : Point3D.t F * Point3D.t F) : Prop :=
  exists a b, In a panels /\ In b panels /\
    segment = (centroid (Panel.get_corners a), centroid (Panel.get_corners b)).

(** The fields of a panel other than its position. *)
Definition same_but_position (p q : Panel.t F) : Prop :=
  Panel.name q = Panel.name p /\ Panel.width q = Panel.width p /\
  Panel.depth q = Panel.depth p /\ Panel.thickness q = Panel.thickness p /\
  Panel.holes q = Panel.holes p /\ Panel.material q = Panel.material p.
End Defs.
End Spec.

(* ------------------------------------------------------------------ *)
(** ** Vocabulary for statements about drawings *)

Module Drawn.
Section Defs.
Context {F : Type} {A : Arith F}.

(** [s'] is [s] with the elements [new] appended and nothing else changed. *)
Definition appended (s s' : SVGDrawing.t F) (new : list (SVGDrawing.element F)) : Prop :=
  SVGDrawing.elements s' = SVGDrawing.elements s ++ new
  /\ SVGDrawing.defs s' = SVGDrawing.defs s
  /\ SVGDrawing.width s' = SVGDrawing.width s
  /\ SVGDrawing.height s' = SVGDrawing.height s.

(** [s'] extends [s] by elements that all satisfy [P]. *)
Definition extends (P : SVGDrawing.element F -> Prop) (s s' : SVGDrawing.t F) : Prop :=
  exists new, appended s s' new /\ Forall P new.

(** The property every element has. *)
Definition anything : SVGDrawing.element F -> Prop := fun _ => True.

(** The same for a [BenchDrawing]: the concept name is kept too. *)
Definition bench_extends (P : SVGDrawing.element F -> Prop)
    (b b' : BenchDrawing.t F) : Prop :=
  BenchDrawing.concept_name b' = BenchDrawing.concept_name b
  /\ extends P (BenchDrawing.svg b) (BenchDrawing.svg b').

(** The kinds of elements; [KLabel] is the rotated text of a dimension
    line. *)
Inductive kind : Type := KLine | KRect | KCircle | KPolygon | KText | KLabel.

Definition kind_of (e : SVGDrawing.element F) : kind :=
  match e with
  | SVGDrawing.Line _ _ _ _ _ _ _ _ _ _ => KLine
  | SVGDrawing.Rect _ _ _ _ _ _ _ _ => KRect
  | SVGDrawing.Circle _ _ _ _ _ _ => KCircle
  | SVGDrawing.Polygon _ _ _ _ _ => KPolygon
  | SVGDrawing.Text _ _ _ _ _ _ _ => KText
  | SVGDrawing.DimensionLabel _ _ _ _ _ _ => KLabel
  end.

Definition is_kind (k k' : kind) : bool :=
  match k, k' with
  | KLine, KLine | KRect, KRect | KCircle, KCircle
  | KPolygon, KPolygon | KText, KText | KLabel, KLabel => true
  | _, _ => false
  end.

(** The kinds written as a [<text>] element: the texts of
    [SVGDrawing.text] and the labels of [SVGDrawing.dimension_line]. *)
Definition is_text_markup (k : kind) : bool :=
  is_kind KText k || is_kind KLabel k.

(** Number of elements of a drawing whose kind is selected by [sel]. *)
Definition count (sel : kind -> bool) (s : SVGDrawing.t F) : nat :=
  List.length (filter (fun e => sel (kind_of e)) (SVGDrawing.elements s)).

(** [n] when the kind is selected, 0 otherwise. *)
Definition weight (sel : kind -> bool) (k : kind) (n : nat) : nat :=
  if sel k then n else 0%nat.

(** Total number of holes of a panel list. *)
Definition hole_count (panels : list (Panel.t F)) : nat :=
  list_sum (map (fun p => List.length (Panel.holes p)) panels).

(** A panel outline of the flat patterns sits in a column ([x] is 100
    plus a multiple of 400) and starts no lower than the 1400 limit. *)
Definition outline_in_page (e : SVGDrawing.element F) : Prop :=
  match e with
  | SVGDrawing.Rect x y _ _ _ _ _ _ =>
      (exists k, (0 <= k)%Z /\ x = of_Z (100 + 400 * k))
      /\ ((exists n, (n <= 1400)%Z /\ y = of_Z n) \/ (of_Z 1400 <? y)%num = false)
  | _ => True
  end.

(** A panel dictionary whose ['vertices'] is an array of n rows and 3
    columns with n at least 1, as [create_box_mesh] builds it: its mean
    along axis 0 has the three entries the connection lines read. *)
Definition box_shaped (m : Mesh.t F) : Prop :=
  Mesh.vertices m <> []
  /\ Forall (fun row => List.length row = 3%nat) (Mesh.vertices m).

(** A pair of indices Python accepts for a list of [n] items. *)
Definition in_range (n : nat) (c : Z * Z) : Prop :=
  (- Z.of_nat n <= fst c < Z.of_nat n)%Z /\ (- Z.of_nat n <= snd c < Z.of_nat n)%Z.
End Defs.
End Drawn.

(** Formatting functions for statements that hold whatever the formatting. *)
Definition format_blank : Format float := {| str _ := EmptyString; fixed1 _ := EmptyString |}.

(* ------------------------------------------------------------------ *)
(** ** Facts about binary64 *)

Lemma Prim2SF_finite_cases (x : float) :
  is_finite x = true ->
  (exists s, Prim2SF x = S754_zero s) \/ (exists s m e, Prim2SF x = S754_finite s m e).
Proof.
  unfold is_finite. intro H.
  apply negb_true_iff, orb_false_iff in H. destruct H as [Hn Hi].
  unfold Prim2SF. rewrite Hn, Hi.
  destruct (is_zero x); [left; eexists; reflexivity|].
  destruct (Z.frexp x) as [r ex].
  destruct (shr_fexp _ _ _ _ _) as [shr e'].
  destruct (shr_m shr); [left|right|left]; repeat eexists.
Qed.

(** A finite number minus itself is [+0.0]. *)
Lemma float_sub_diag (x : float) :
  is_finite x = true -> PrimFloat.sub x x = PrimFloat.zero.
Proof.
  intro H. apply Prim2SF_inj. rewrite sub_spec.
  destruct (Prim2SF_finite_cases x H) as [[s E]|[s [m [e E]]]]; rewrite E.
  - destruct s; reflexivity.
  - unfold SF64sub, SFsub. rewrite Z.sub_diag. reflexivity.
Qed.

(** [0 + w == w] for every [w] but NaN. *)
Lemma float_add_zero_l (w : float) :
  is_nan w = false -> PrimFloat.eqb (PrimFloat.add PrimFloat.zero w) w = true.
Proof.
  unfold is_nan. intro H. apply negb_false_iff in H.
  rewrite eqb_spec in H. rewrite eqb_spec, add_spec.
  change (Prim2SF PrimFloat.zero) with (S754_zero false).
  destruct (Prim2SF w) as [s| s| |s m e]; try exact H.
  destruct s; reflexivity.
Qed.

(** Two floats with different bit patterns are different. *)
Lemma float_neq (a b : float) : PrimFloat.Leibniz.eqb a b = false -> a <> b.
Proof.
  intros H E. apply FloatAxioms.Leibniz.eqb_spec in E. congruence.
Qed.

(* ------------------------------------------------------------------ *)
(** ** Points and panels *)

Section PointFacts.
Context {F : Type} {A : Arith F} {M : Libm F}.

(** The point [rotate_y] builds carries the y coordinate of its source and
    the point [rotate_x] builds carries the x coordinate, whatever the
    cosine and the sine are. *)
Lemma rotated_point_copies_axis_coordinate (p : Point3D.t F) (theta : F) :
  Point3D.y (Point3D.rotate_y p theta) = Point3D.y p /\
  Point3D.x (Point3D.rotate_x p theta) = Point3D.x p.
Proof. split; reflexivity. Qed.

(** C3: [to_isometric] is the rotation about Y by 45 degrees, followed
    by the rotation about X by 35.264 degrees, followed by the screen map
    [(x * scale, -y * scale)]; written out, the two screen coordinates are
    the closed forms below.  The function has no failing branch. *)
Theorem to_isometric_is_two_rotations (p : Point3D.t F) (scale : F) :
  let a := radians (of_Z 45) in
  let b := radians (lit 35264 1000) in
  let v := (Point3D.x p, Point3D.y p, Point3D.z p) in
  Point3D.to_isometric p scale
    = Spec.screen scale (Spec.rot_x (cos b) (sin b) (Spec.rot_y (cos a) (sin a) v))
  /\ Point3D.to_isometric p scale
    = (((Point3D.x p * cos a + Point3D.z p * sin a) * scale)%num,
       (- (Point3D.y p * cos b
           - (- Point3D.x p * sin a + Point3D.z p * cos a) * sin b) * scale)%num).
Proof. destruct p as [x y z]. split; reflexivity. Qed.
End PointFacts.

(** C10: for every point and every angle that is not infinite (NaN
    included), [rotate_y] returns a point, the one with the rotated x and
    z and the y coordinate of its source, and [rotate_x] returns a point
    with the x coordinate of its source.  At an infinite angle [math.cos]
    raises [ValueError] and neither method returns a point. *)
Theorem rotation_keeps_axis_coordinate (M : Libm float)
    (p : Point3D.t float) (theta : float) :
  (is_infinity theta = false ->
     exists qy qx : Point3D.t float,
       Calls.rotate_y p theta = inr qy
       /\ qy = Point3D.rotate_y p theta
       /\ Point3D.y qy = Point3D.y p
       /\ Calls.rotate_x p theta = inr qx
       /\ qx = Point3D.rotate_x p theta
       /\ Point3D.x qx = Point3D.x p)
  /\ (is_infinity theta = true ->
        Calls.rotate_y p theta = inl ValueError
        /\ Calls.rotate_x p theta = inl ValueError).
Proof.
  split; intro H.
  - exists (Point3D.rotate_y p theta), (Point3D.rotate_x p theta).
    unfold Calls.rotate_y, Calls.rotate_x, Calls.math_cos, Calls.math_sin.
    rewrite H. repeat split; reflexivity.
  - unfold Calls.rotate_y, Calls.rotate_x, Calls.math_cos.
    rewrite H. split; reflexivity.
Qed.

Lemma rotation_keeps_axis_coordinate_witness :
  is_infinity (float_of_Z 45) = false
  /\ exists qy qx : Point3D.t float,
       Calls.rotate_y (M := libm_identity)
         (Point3D.mk (float_of_Z 1) (float_of_Z 2) (float_of_Z 3)) (float_of_Z 45) = inr qy
       /\ qy = Point3D.rotate_y (M := libm_identity)
                (Point3D.mk (float_of_Z 1) (float_of_Z 2) (float_of_Z 3)) (float_of_Z 45)
       /\ Point3D.y qy = float_of_Z 2
       /\ Calls.rotate_x (M := libm_identity)
            (Point3D.mk (float_of_Z 1) (float_of_Z 2) (float_of_Z 3)) (float_of_Z 45) = inr qx
       /\ qx = Point3D.rotate_x (M := libm_identity)
                (Point3D.mk (float_of_Z 1) (float_of_Z 2) (float_of_Z 3)) (float_of_Z 45)
       /\ Point3D.x qx = float_of_Z 1.
Proof.
  split; [reflexivity|].
  apply (proj1 (rotation_keeps_axis_coordinate libm_identity
                  (Point3D.mk (float_of_Z 1) (float_of_Z 2) (float_of_Z 3))
                  (float_of_Z 45))).
  reflexivity.
Defined.

Section PanelFacts.
Context {F : Type} {A : Arith F}.

Lemma get_corners_length (p : Panel.t F) :
  List.length (Panel.get_corners p) = 8%nat.
Proof. reflexivity. Qed.

(** Corner [n + 4] sits above corner [n]: same x and y, z raised by the
    thickness. *)
Lemma get_corners_top_over_bottom (p : Panel.t F) (n : nat) (c : Point3D.t F) :
  (n < 4)%nat -> nth_error (Panel.get_corners p) n = Some c ->
  nth_error (Panel.get_corners p) (n + 4)
    = Some (Point3D.mk (Point3D.x c) (Point3D.y c) (Point3D.z c + Panel.thickness p)%num).
Proof.
  intros Hn. do 4 (destruct n as [|n]; [intros [= <-]; reflexivity|]). lia.
Qed.

(** C5: the 8 vertices of [create_box_mesh] are, index for index, the 8
    corners of [Panel.get_corners] for the same anchor and dimensions;
    the three coordinate arrays of the mesh are their columns. *)
Theorem create_box_mesh_vertices_are_corners
    (x y z width depth thickness : F) (color name material : string)
    (holes : list (Point3D.t F)) :
  let m := Viewer.create_box_mesh x y z width depth thickness color in
  let corners := Panel.get_corners
    (Panel.mk name width depth thickness (Point3D.mk x y z) holes material) in
  Mesh.vertices m = map (fun c => [Point3D.x c; Point3D.y c; Point3D.z c]) corners
  /\ List.length (Mesh.vertices m) = 8%nat
  /\ (forall n c, nth_error corners n = Some c ->
        nth_error (Mesh.vertices m) n = Some [Point3D.x c; Point3D.y c; Point3D.z c])
  /\ Mesh.x m = map Point3D.x corners
  /\ Mesh.y m = map Point3D.y corners
  /\ Mesh.z m = map Point3D.z corners.
Proof.
  cbv zeta. repeat split; try reflexivity.
  intros n c H.
  change (Mesh.vertices (Viewer.create_box_mesh x y z width depth thickness color))
    with (map (fun c => [Point3D.x c; Point3D.y c; Point3D.z c])
            (Panel.get_corners
               (Panel.mk name width depth thickness (Point3D.mk x y z) holes material))).
  rewrite nth_error_map, H. reflexivity.
Qed.

(** C1: the index table of [create_box_mesh] does not depend on the
    anchor or the dimensions, its three arrays are parallel and refer to
    the 8 corners only; but it holds 24 index triples, not 12, and they are
    not two per face: the bottom face (corners 0-3) gets a single
    triangle. *)
Theorem create_box_mesh_index_table
    (x y z width depth thickness : F) (color : string) :
  let m := Viewer.create_box_mesh x y z width depth thickness color in
  let tris := Viewer.triangles (Mesh.i m) (Mesh.j m) (Mesh.k m) in
  (forall x' y' z' width' depth' thickness' color',
      let m' := Viewer.create_box_mesh x' y' z' width' depth' thickness' color' in
      Mesh.i m' = Mesh.i m /\ Mesh.j m' = Mesh.j m /\ Mesh.k m' = Mesh.k m)
  /\ List.length (Mesh.i m) = List.length (Mesh.j m)
  /\ List.length (Mesh.j m) = List.length (Mesh.k m)
  /\ Forall (fun '(a, b, c) => a < 8 /\ b < 8 /\ c < 8)%nat tris
  /\ forallb (fun tri => existsb (fun face => Spec.in_face face tri) Spec.faces) tris = true
  /\ List.length tris = 24%nat
  /\ map (fun face => List.length (filter (Spec.in_face face) tris)) Spec.faces
     = [1; 5; 3; 4; 7; 4]%nat.
Proof.
  cbv zeta. repeat split; try reflexivity.
  cbn. repeat constructor.
Qed.
End PanelFacts.

(** C4: [get_corners] returns 8 corners; corners 0-3 are the bottom face
    in the order origin, +X, +X+Y, +Y, corners 4-7 repeat that order at
    [z + thickness]; and for a panel placed at (0, 0, 0) whose dimensions
    are numbers (not NaN), corner 6 compares equal to (w, d, t). *)
Theorem get_corners_indexing (p : Panel.t float) :
  let '(x, y, z) := (Point3D.x (Panel.position p), Point3D.y (Panel.position p),
                     Point3D.z (Panel.position p)) in
  let '(w, d, t) := (Panel.width p, Panel.depth p, Panel.thickness p) in
  List.length (Panel.get_corners p) = 8%nat
  /\ firstn 4 (Panel.get_corners p)
     = [ Point3D.mk x y z; Point3D.mk (x + w)%float y z;
         Point3D.mk (x + w)%float (y + d)%float z; Point3D.mk x (y + d)%float z ]
  /\ skipn 4 (Panel.get_corners p)
     = map (fun c => Point3D.mk (Point3D.x c) (Point3D.y c) (z + t)%float)
           (firstn 4 (Panel.get_corners p))
  /\ (Panel.position p = Point3D.mk (of_Z 0) (of_Z 0) (of_Z 0) ->
      is_nan w = false -> is_nan d = false -> is_nan t = false ->
      option_map (fun c => Point3D.equal c (Point3D.mk w d t))
                 (nth_error (Panel.get_corners p) 6)
      = Some true).
Proof.
  destruct p as [name w d t [x y z] holes material]. cbn [Panel.position
    Panel.width Panel.depth Panel.thickness Point3D.x Point3D.y Point3D.z].
  repeat split.
  intros [= -> -> ->] Hw Hd Ht.
  cbn [Panel.get_corners Panel.position Panel.width Panel.depth Panel.thickness
       Point3D.x Point3D.y Point3D.z nth_error option_map].
  unfold Point3D.equal. cbn [Point3D.x Point3D.y Point3D.z].
  change (of_Z 0) with PrimFloat.zero.
  change (@add float Binary64) with PrimFloat.add.
  change (@eqb float Binary64) with PrimFloat.eqb.
  rewrite !float_add_zero_l by assumption. reflexivity.
Qed.

Lemma get_corners_indexing_witness :
  let p := Panel.mk "Seat Panel" (lit 600 10) (lit 110 10) (lit 125 1000)
             (Point3D.mk (of_Z 0) (of_Z 0) (of_Z 0)) [] "304 Stainless Steel" in
  option_map (fun c => Point3D.equal c (Point3D.mk (lit 600 10 : float) (lit 110 10) (lit 125 1000)))
             (nth_error (Panel.get_corners p) 6)
  = Some true.
Proof.
  cbv zeta.
  apply (get_corners_indexing
           (Panel.mk "Seat Panel" (lit 600 10) (lit 110 10) (lit 125 1000)
              (Point3D.mk (of_Z 0) (of_Z 0) (of_Z 0)) [] "304 Stainless Steel"));
    vm_compute; reflexivity.
Defined.

(* ------------------------------------------------------------------ *)
(** ** The explode transform *)

Section ExplodeFacts.
Context {F : Type} {A : Arith F}.

Lemma fold_left_snoc {X Y Z : Type} (g : X -> Y -> Z) (l : list (X * Y))
    (acc : list Z) :
  fold_left (fun acc '(i, a) => acc ++ [g i a]) l acc
  = acc ++ map (fun ia => g (fst ia) (snd ia)) l.
Proof.
  revert acc. induction l as [|[i a] l IH]; intro acc; cbn.
  - now rewrite app_nil_r.
  - rewrite IH, <- app_assoc. reflexivity.
Qed.

Lemma explode_panels_map (panels : list (Panel.t F)) (D : F) :
  BenchDrawing.explode_panels panels D
  = map (fun ip => BenchDrawing.explode_panel D (List.length panels) (fst ip) (snd ip))
        (BenchDrawing.enumerate 0 panels).
Proof.
  unfold BenchDrawing.explode_panels.
  now rewrite (fold_left_snoc (BenchDrawing.explode_panel D (List.length panels))).
Qed.

Lemma enumerate_length {X : Type} (l : list X) (k : nat) :
  List.length (BenchDrawing.enumerate k l) = List.length l.
Proof. revert k. induction l; intro k; cbn; auto. Qed.

Lemma enumerate_nth_error {X : Type} (l : list X) (k i : nat) :
  nth_error (BenchDrawing.enumerate k l) i
  = option_map (fun a => ((k + i)%nat, a)) (nth_error l i).
Proof.
  revert k i. induction l as [|a l IH]; intros k [|i]; cbn; try reflexivity.
  - now rewrite Nat.add_0_r.
  - rewrite IH. now rewrite Nat.add_succ_r.
Qed.

Lemma explode_panels_length (panels : list (Panel.t F)) (D : F) :
  List.length (BenchDrawing.explode_panels panels D) = List.length panels.
Proof. now rewrite explode_panels_map, length_map, enumerate_length. Qed.

Lemma explode_panels_nth_error (panels : list (Panel.t F)) (D : F) (i : nat) :
  nth_error (BenchDrawing.explode_panels panels D) i
  = option_map (BenchDrawing.explode_panel D (List.length panels) i)
               (nth_error panels i).
Proof.
  rewrite explode_panels_map, nth_error_map, enumerate_nth_error.
  destruct (nth_error panels i); reflexivity.
Qed.

Lemma explode_panel_same_but_position (D : F) (n i : nat) (p : Panel.t F) :
  Spec.same_but_position p (BenchDrawing.explode_panel D n i p).
Proof. repeat split. Qed.

Lemma explode_panels_same_but_position (panels : list (Panel.t F)) (D : F) :
  Forall2 Spec.same_but_position panels (BenchDrawing.explode_panels panels D).
Proof.
  rewrite explode_panels_map. generalize (List.length panels) as n.
  generalize 0%nat as k. induction panels as [|p l IH]; intros k n; cbn.
  - constructor.
  - constructor; [apply explode_panel_same_but_position | apply IH].
Qed.

(** *** On the object store *)

Lemma deref_app (h extra : Heap.t F) (refs : list Heap.ref) (ps : list (Panel.t F)) :
  Heap.deref h refs = Some ps -> Heap.deref (h ++ extra) refs = Some ps.
Proof.
  revert ps. induction refs as [|r refs IH]; intros ps; cbn; [auto|].
  unfold Heap.get.
  destruct (nth_error h r) as [p|] eqn:Hr; [|discriminate].
  destruct (Heap.deref h refs) as [qs|]; [|discriminate].
  intros [= <-].
  rewrite nth_error_app1 by (apply nth_error_Some; congruence).
  rewrite Hr, (IH qs eq_refl). reflexivity.
Qed.

Lemma deref_fresh (h new : Heap.t F) :
  Heap.deref (h ++ new) (seq (List.length h) (List.length new)) = Some new.
Proof.
  revert h. induction new as [|q new IH]; intro h; cbn; [reflexivity|].
  unfold Heap.get. rewrite nth_error_app2, Nat.sub_diag by lia. cbn.
  specialize (IH (h ++ [q])).
  rewrite length_app, Nat.add_1_r, <- app_assoc in IH. cbn in IH.
  rewrite IH. reflexivity.
Qed.

Lemma explode_loop_spec (D : F) (count : nat) (panels : list Heap.ref) :
  forall (h : Heap.t F) (i : nat) (acc : list Heap.ref) (ps : list (Panel.t F)),
    Heap.deref h panels = Some ps ->
    Heap.explode_loop h D count i panels acc
    = Some (h ++ map (fun ip => BenchDrawing.explode_panel D count (fst ip) (snd ip))
                     (BenchDrawing.enumerate i ps),
            acc ++ seq (List.length h) (List.length ps)).
Proof.
  induction panels as [|r rest IH]; intros h i acc ps; cbn.
  - intros [= <-]. cbn. now rewrite !app_nil_r.
  - destruct (Heap.get h r) as [p|] eqn:Hr; [|discriminate].
    destruct (Heap.deref h rest) as [qs|] eqn:Hq; [|discriminate].
    intros [= <-].
    rewrite (IH (h ++ [BenchDrawing.explode_panel D count i p]) (S i) _ qs)
      by (apply deref_app; assumption).
    cbn. rewrite <- !app_assoc, length_app, Nat.add_1_r. reflexivity.
Qed.

Lemma deref_length (h : Heap.t F) (refs : list Heap.ref) (ps : list (Panel.t F)) :
  Heap.deref h refs = Some ps -> List.length ps = List.length refs.
Proof.
  revert ps. induction refs as [|r refs IH]; intros ps; cbn.
  - now intros [= <-].
  - destruct (Heap.get h r); [|discriminate].
    destruct (Heap.deref h refs) as [qs|]; [|discriminate].
    intros [= <-]. cbn. f_equal. now apply IH.
Qed.

(** C7: run on the object store, the explode loop returns a list of new
    panel objects; each differs from its source panel in the position
    only (name, width, depth, thickness, holes and material are the
    source's), and every object that existed before the call, the source
    panels among them, are left as they were. *)
Theorem explode_derives_copies (h : Heap.t F) (panels : list Heap.ref) (D : F)
    (ps : list (Panel.t F)) :
  Heap.deref h panels = Some ps ->
  exists h' exploded_panels,
    Heap.explode_refs h panels D = Some (h', exploded_panels)
    /\ (forall r, (r < List.length h)%nat -> Heap.get h' r = Heap.get h r)
    /\ Heap.deref h' panels = Some ps
    /\ Forall (fun r => (List.length h <= r)%nat) exploded_panels
    /\ Heap.deref h' exploded_panels = Some (BenchDrawing.explode_panels ps D)
    /\ Forall2 Spec.same_but_position ps (BenchDrawing.explode_panels ps D).
Proof.
  intro Hd. unfold Heap.explode_refs.
  rewrite (explode_loop_spec D _ panels h 0 [] Hd).
  rewrite <- (deref_length _ _ Hd), <- explode_panels_map. cbn [app].
  do 2 eexists. split; [reflexivity|]. repeat split.
  - intros r Hr. unfold Heap.get. now rewrite nth_error_app1.
  - now apply deref_app.
  - apply Forall_forall. intros r Hr. apply in_seq in Hr. lia.
  - rewrite <- (explode_panels_length ps D). apply deref_fresh.
  - apply explode_panels_same_but_position.
Qed.

(** The shift of panel [i]: [explode_distance * (i - len(panels) // 2)]
    added to z, zero added to x and y. *)
Lemma explode_panels_shift (panels : list (Panel.t F)) (D : F) (i : nat)
    (p : Panel.t F) :
  nth_error panels i = Some p ->
  exists q, nth_error (BenchDrawing.explode_panels panels D) i = Some q
    /\ Spec.same_but_position p q
    /\ Panel.position q
       = Point3D.mk
           (Point3D.x (Panel.position p) + of_Z 0)%num
           (Point3D.y (Panel.position p) + of_Z 0)%num
           (Point3D.z (Panel.position p)
            + D * of_Z (Z.of_nat i - Z.of_nat (List.length panels) / 2))%num.
Proof.
  intro H. rewrite explode_panels_nth_error, H. cbn.
  eexists. split; [reflexivity|]. split; [apply explode_panel_same_but_position|].
  reflexivity.
Qed.

(** Exploding by [D] and then by [-D], in any arithmetic: panel [i] comes
    back at [(z + D * k) + (-D) * k] with [k = i - len(panels) // 2]. *)
Lemma explode_panels_back (panels : list (Panel.t F)) (D : F) (i : nat)
    (p : Panel.t F) :
  nth_error panels i = Some p ->
  let k := of_Z (Z.of_nat i - Z.of_nat (List.length panels) / 2) in
  exists q,
    nth_error (BenchDrawing.explode_panels
                 (BenchDrawing.explode_panels panels D) (- D)%num) i = Some q
    /\ Spec.same_but_position p q
    /\ Panel.position q
       = Point3D.mk
           (Point3D.x (Panel.position p) + of_Z 0 + of_Z 0)%num
           (Point3D.y (Panel.position p) + of_Z 0 + of_Z 0)%num
           (Point3D.z (Panel.position p) + D * k + - D * k)%num.
Proof.
  intro H. cbv zeta.
  rewrite explode_panels_nth_error, explode_panels_length, explode_panels_nth_error, H.
  cbn. eexists. split; [reflexivity|]. split; [repeat split | reflexivity].
Qed.

End ExplodeFacts.

(* ------------------------------------------------------------------ *)
(** ** Exact arithmetic *)

Section ExactArithmetic.
Context {F : Type} {A : Arith F}.
Hypothesis RT : ring_theory (of_Z 0) (of_Z 1) add mul sub neg (@eq F).

Add Ring num_ring : RT.

(** Where the arithmetic is exact, the rotation formulas of the code are
    the products with the standard matrices, and a quarter turn takes the
    z axis to the x axis (about Y) and the y axis to the z axis (about X):
    both rotations are right-handed. *)
Lemma rotations_are_standard_matrices (c s : F) (v : F * F * F) :
  Spec.rot_y c s v = Spec.mat_vec (Spec.Ry c s) v
  /\ Spec.rot_x c s v = Spec.mat_vec (Spec.Rx c s) v
  /\ Spec.rot_y (of_Z 0) (of_Z 1) (of_Z 0, of_Z 0, of_Z 1) = (of_Z 1, of_Z 0, of_Z 0)
  /\ Spec.rot_x (of_Z 0) (of_Z 1) (of_Z 0, of_Z 1, of_Z 0) = (of_Z 0, of_Z 0, of_Z 1).
Proof.
  destruct v as [[x y] z]. unfold Spec.rot_y, Spec.rot_x, Spec.mat_vec, Spec.Ry, Spec.Rx.
  repeat split; repeat (f_equal; try ring).
Qed.

Lemma explode_panel_undo (D : F) (n i : nat) (p : Panel.t F) :
  BenchDrawing.explode_panel (- D)%num n i (BenchDrawing.explode_panel D n i p) = p.
Proof.
  destruct p as [name w d t [x y z] holes material].
  unfold BenchDrawing.explode_panel, Point3D.translate. cbn.
  f_equal. f_equal; ring.
Qed.

Lemma explode_panels_undo (panels : list (Panel.t F)) (D : F) :
  BenchDrawing.explode_panels (BenchDrawing.explode_panels panels D) (- D)%num
  = panels.
Proof.
  apply nth_error_ext. intro i.
  rewrite explode_panels_nth_error, explode_panels_length, explode_panels_nth_error.
  destruct (nth_error panels i) as [p|]; cbn; [|reflexivity].
  now rewrite explode_panel_undo.
Qed.

End ExactArithmetic.

Lemma Integers_ring : ring_theory (of_Z 0) (of_Z 1) add mul sub neg (@eq Z).
Proof. constructor; intros; cbv [of_Z add mul sub neg Integers]; ring. Qed.

Section ExplodeRoundTrip.
Context {F : Type} {A : Arith F}.

(** C6, for the arithmetic the code runs with (binary64 included) and for
    any other: panel [i] is shifted along Z by
    [D * (i - floor(panelCount / 2))], with 0 added to x and y; exploding
    by [D] and then by [-D] brings it back at
    [(z + D * k) + (-D) * k] computed in that arithmetic, with
    [k = i - floor(panelCount / 2)].  Where the ring laws hold (exact
    arithmetic) that position is the original one and the whole panel list
    is given back. *)
Theorem explode_shift_and_exact_round_trip (panels : list (Panel.t F)) (D : F) :
  (forall i p, nth_error panels i = Some p ->
     exists q, nth_error (BenchDrawing.explode_panels panels D) i = Some q
       /\ Panel.position q
          = Point3D.translate (Panel.position p) (of_Z 0) (of_Z 0)
              (D * of_Z (Z.of_nat i - Z.of_nat (List.length panels) / 2))%num)
  /\ (forall i p, nth_error panels i = Some p ->
        let k := of_Z (Z.of_nat i - Z.of_nat (List.length panels) / 2) in
        exists q,
          nth_error (BenchDrawing.explode_panels
                       (BenchDrawing.explode_panels panels D) (- D)%num) i = Some q
          /\ Spec.same_but_position p q
          /\ Panel.position q
             = Point3D.mk
                 (Point3D.x (Panel.position p) + of_Z 0 + of_Z 0)%num
                 (Point3D.y (Panel.position p) + of_Z 0 + of_Z 0)%num
                 (Point3D.z (Panel.position p) + D * k + - D * k)%num)
  /\ (ring_theory (of_Z 0) (of_Z 1) add mul sub neg (@eq F) ->
        BenchDrawing.explode_panels (BenchDrawing.explode_panels panels D) (- D)%num
        = panels
        /\ map Panel.position
             (BenchDrawing.explode_panels
                (BenchDrawing.explode_panels panels D) (- D)%num)
           = map Panel.position panels).
Proof.
  split; [|split].
  - intros i p H. destruct (explode_panels_shift panels D i H) as [q [Hq [_ Hp]]].
    exists q. split; [exact Hq|exact Hp].
  - intros i p H. exact (explode_panels_back panels D i H).
  - intro RT. rewrite (explode_panels_undo RT panels D). split; reflexivity.
Qed.
End ExplodeRoundTrip.

Lemma explode_shift_and_exact_round_trip_witness :
  ring_theory (of_Z 0) (of_Z 1) add mul sub neg (@eq Z)
  /\ BenchDrawing.explode_panels
       (BenchDrawing.explode_panels integer_panels 5%Z) (- 5%Z)%num
     = integer_panels
  /\ map Panel.position
       (BenchDrawing.explode_panels
          (BenchDrawing.explode_panels integer_panels 5%Z) (- 5%Z)%num)
     = map Panel.position integer_panels.
Proof.
  split; [exact Integers_ring|].
  apply (proj2 (proj2 (explode_shift_and_exact_round_trip integer_panels 5%Z))).
  exact Integers_ring.
Defined.

(** C6 fails in binary64: for three panels at z = 0.1 and distance 5.0, the
    first panel comes back at z = (0.1 - 5.0) + 5.0, which is not 0.1. *)
Lemma explode_round_trip_rounds_in_binary64 :
  let back := BenchDrawing.explode_panels
                (BenchDrawing.explode_panels three_panels_at_tenth (lit 50 10))
                (- lit 50 10)%num in
  map (fun q => Point3D.equal (Panel.position q)
                  (Point3D.mk (of_Z 0) (of_Z 0) (lit 1 10))) back
    = [false; true; false]
  /\ map Panel.position back <> map Panel.position three_panels_at_tenth
  /\ ~ (forall (panels : list (Panel.t float)) (D : float),
          map Panel.position
            (BenchDrawing.explode_panels (BenchDrawing.explode_panels panels D) (- D)%num)
          = map Panel.position panels).
Proof.
  assert (N : map Panel.position
                (BenchDrawing.explode_panels
                   (BenchDrawing.explode_panels three_panels_at_tenth (lit 50 10))
                   (- lit 50 10)%num)
              <> map Panel.position three_panels_at_tenth).
  { intro H.
    apply (f_equal (fun l => match l with
                             | p :: _ => PrimFloat.Leibniz.eqb (Point3D.z p) (lit 1 10)
                             | [] => true
                             end)) in H.
    vm_compute in H. discriminate. }
  cbv zeta. split; [vm_compute; reflexivity|]. split; [exact N|].
  intro H. exact (N (H _ _)).
Qed.

(** The repository's own concept 4 panels, at the default distance 5.0,
    do come back exactly in binary64. *)
Lemma explode_round_trip_concept_4 :
  BenchDrawing.explode_panels
    (BenchDrawing.explode_panels (create_concept_4_slab_legs (F := float)) (lit 50 10))
    (- lit 50 10)%num
  = create_concept_4_slab_legs.
Proof.
  apply nth_error_ext. intro i.
  do 3 (destruct i as [|i]; [vm_compute; reflexivity|]).
  destruct i; reflexivity.
Qed.

(** The difference is not bounded by a rounding step: at distance 1e17
    the first and the last of three panels at z = 1 come back at z = 0. *)
Lemma explode_round_trip_absorbs_in_binary64 :
  map (fun q => Point3D.z (Panel.position q))
      (BenchDrawing.explode_panels
         (BenchDrawing.explode_panels three_panels_at_one (of_Z (10 ^ 17)))
         (- of_Z (10 ^ 17))%num)
  = [of_Z 0; of_Z 1; of_Z 0].
Proof. vm_compute. reflexivity. Qed.

Lemma explode_derives_copies_witness :
  exists h' exploded_panels,
    Heap.explode_refs (create_concept_4_slab_legs (F := float)) [0; 1; 2]%nat (lit 50 10)
    = Some (h', exploded_panels)
    /\ Heap.deref h' [0; 1; 2]%nat = Some create_concept_4_slab_legs.
Proof.
  destruct (@explode_derives_copies float Binary64 create_concept_4_slab_legs
              [0; 1; 2]%nat (lit 50 10) create_concept_4_slab_legs eq_refl)
    as (h' & e & H1 & _ & H3 & _).
  exists h', e. split; assumption.
Defined.

(* ------------------------------------------------------------------ *)
(** ** Dimension lines *)

(** C8: between two coincident points with finite coordinates,
    [dimension_line] takes the early return: the length is 0, nothing is
    divided by it, and the drawing (its element list included) is what it
    was before the call. *)
Theorem dimension_line_coincident_points (M : Libm float)
    (self : SVGDrawing.t float) (x y : float) (label : string) (offset : float) :
  is_finite x = true -> is_finite y = true ->
  SVGDrawing.dimension_line self x y x y label offset = self
  /\ SVGDrawing.elements (SVGDrawing.dimension_line self x y x y label offset)
     = SVGDrawing.elements self.
Proof.
  intros Hx Hy.
  assert (E : SVGDrawing.dimension_line self x y x y label offset = self).
  { unfold SVGDrawing.dimension_line.
    change (@sub float Binary64) with PrimFloat.sub.
    rewrite (float_sub_diag x Hx), (float_sub_diag y Hy).
    reflexivity. }
  split; [exact E | now rewrite E].
Qed.

Lemma dimension_line_coincident_points_witness :
  SVGDrawing.elements
    (SVGDrawing.dimension_line (M := libm_identity) (SVGDrawing.init 1200 1600)
       (of_Z 5) (of_Z 5) (of_Z 5) (of_Z 5) "5.0" (of_Z 20))
  = [].
Proof.
  apply (dimension_line_coincident_points libm_identity (SVGDrawing.init 1200 1600)
           (of_Z 5) (of_Z 5) "5.0" (of_Z 20)); vm_compute; reflexivity.
Defined.

(* ------------------------------------------------------------------ *)
(** ** The bounding box of the orthographic views *)

Section MinMax.
Context {F : Type} {A : Arith F}.
Hypothesis ltb_irrefl : forall a : F, (a <? a)%num = false.
Hypothesis ltb_trans :
  forall a b c : F, (a <? b)%num = true -> (b <? c)%num = true -> (a <? c)%num = true.

Lemma fold_min_spec (r seen : list F) (best : F) :
  In best seen -> (forall v, In v seen -> (v <? best)%num = false) ->
  let m := fold_left (fun best item => if (item <? best)%num then item else best) r best in
  In m (seen ++ r) /\ forall v, In v (seen ++ r) -> (v <? m)%num = false.
Proof.
  revert seen best. induction r as [|item r IH]; intros seen best Hin Hlow; cbn.
  - rewrite app_nil_r. auto.
  - replace (seen ++ item :: r) with ((seen ++ [item]) ++ r)
      by (rewrite <- app_assoc; reflexivity).
    apply IH.
    + destruct (item <? best)%num; apply in_or_app; cbn; auto.
    + intros v Hv. apply in_app_or in Hv.
      destruct (item <? best)%num eqn:E.
      * destruct Hv as [Hv|[<-|[]]]; [|apply ltb_irrefl].
        destruct (v <? item)%num eqn:E'; [|reflexivity].
        rewrite <- (Hlow v Hv). symmetry. now apply ltb_trans with item.
      * destruct Hv as [Hv|[<-|[]]]; auto.
Qed.

Lemma fold_max_spec (r seen : list F) (best : F) :
  In best seen -> (forall v, In v seen -> (best <? v)%num = false) ->
  let m := fold_left (fun best item => if (item >? best)%num then item else best) r best in
  In m (seen ++ r) /\ forall v, In v (seen ++ r) -> (m <? v)%num = false.
Proof.
  revert seen best. induction r as [|item r IH]; intros seen best Hin Hup; cbn.
  - rewrite app_nil_r. auto.
  - replace (seen ++ item :: r) with ((seen ++ [item]) ++ r)
      by (rewrite <- app_assoc; reflexivity).
    apply IH.
    + destruct (best <? item)%num; apply in_or_app; cbn; auto.
    + intros v Hv. apply in_app_or in Hv.
      destruct (best <? item)%num eqn:E.
      * destruct Hv as [Hv|[<-|[]]]; [|apply ltb_irrefl].
        destruct (item <? v)%num eqn:E'; [|reflexivity].
        rewrite <- (Hup v Hv). symmetry. now apply ltb_trans with item.
      * destruct Hv as [Hv|[<-|[]]]; auto.
Qed.

(** Python's [min] returns a member below which no member lies. *)
Lemma py_min_spec (l : list F) (m : F) :
  py_min l = Some m -> In m l /\ forall v, In v l -> (v <? m)%num = false.
Proof.
  destruct l as [|a r]; [discriminate|]. intros [= <-].
  apply (fold_min_spec r [a] a); cbn; auto.
  intros v [<-|[]]. apply ltb_irrefl.
Qed.

Lemma py_max_spec (l : list F) (m : F) :
  py_max l = Some m -> In m l /\ forall v, In v l -> (m <? v)%num = false.
Proof.
  destruct l as [|a r]; [discriminate|]. intros [= <-].
  apply (fold_max_spec r [a] a); cbn; auto.
  intros v [<-|[]]. apply ltb_irrefl.
Qed.
End MinMax.

Section BoundingBoxFacts.
Context {F : Type} {A : Arith F}.

Lemma all_corners_In (panels : list (Panel.t F)) (c : Point3D.t F) :
  In c (BenchDrawing.all_corners panels)
  <-> exists p, In p panels /\ In c (Panel.get_corners p).
Proof. unfold BenchDrawing.all_corners. apply in_flat_map. Qed.

(** The box is there exactly when the assembly has a panel; its six
    fields are the six scans over the corners of all panels. *)
Lemma bounding_box_scans (panels : list (Panel.t F)) :
  match panels with
  | [] => BenchDrawing.bounding_box panels = None
  | _ :: _ =>
      exists bb, BenchDrawing.bounding_box panels = Some bb
        /\ py_min (map Point3D.x (BenchDrawing.all_corners panels))
           = Some (BenchDrawing.min_x bb)
        /\ py_max (map Point3D.x (BenchDrawing.all_corners panels))
           = Some (BenchDrawing.max_x bb)
        /\ py_min (map Point3D.y (BenchDrawing.all_corners panels))
           = Some (BenchDrawing.min_y bb)
        /\ py_max (map Point3D.y (BenchDrawing.all_corners panels))
           = Some (BenchDrawing.max_y bb)
        /\ py_min (map Point3D.z (BenchDrawing.all_corners panels))
           = Some (BenchDrawing.min_z bb)
        /\ py_max (map Point3D.z (BenchDrawing.all_corners panels))
           = Some (BenchDrawing.max_z bb)
  end.
Proof.
  destruct panels as [|p rest]; [reflexivity|].
  eexists. split; [reflexivity|]. repeat split.
Qed.

Lemma bounding_box_fields (panels : list (Panel.t F)) (bb : BenchDrawing.bbox F) :
  BenchDrawing.bounding_box panels = Some bb ->
  py_min (map Point3D.x (BenchDrawing.all_corners panels)) = Some (BenchDrawing.min_x bb)
  /\ py_max (map Point3D.x (BenchDrawing.all_corners panels)) = Some (BenchDrawing.max_x bb)
  /\ py_min (map Point3D.y (BenchDrawing.all_corners panels)) = Some (BenchDrawing.min_y bb)
  /\ py_max (map Point3D.y (BenchDrawing.all_corners panels)) = Some (BenchDrawing.max_y bb)
  /\ py_min (map Point3D.z (BenchDrawing.all_corners panels)) = Some (BenchDrawing.min_z bb)
  /\ py_max (map Point3D.z (BenchDrawing.all_corners panels)) = Some (BenchDrawing.max_z bb).
Proof.
  intro H. pose proof (bounding_box_scans panels) as S.
  destruct panels as [|p rest]; [rewrite S in H; discriminate|].
  destruct S as (bb' & E & S). rewrite E in H. injection H as <-. exact S.
Qed.

(** One box serves the three views: the drawing is the three view loops
    run with the single [bounding_box panels]. *)
Lemma draw_orthographic_views_one_box (self : BenchDrawing.t F)
    (panels : list (Panel.t F)) (y_offset : Z) (scale : F) :
  let captions s :=
    SVGDrawing.text s (of_Z 50) (of_Z y_offset) "ORTHOGRAPHIC VIEWS"
                    12 "start" "normal" "black" in
  BenchDrawing.draw_orthographic_views self panels y_offset scale
  = match BenchDrawing.bounding_box panels with
    | None => Raised (BenchDrawing.with_svg self (captions (BenchDrawing.svg self)))
                     ValueError
    | Some bb =>
        Returned
          (BenchDrawing.with_svg self
             (BenchDrawing.draw_views bb panels (y_offset + 25 + 20) scale
                (SVGDrawing.text (captions (BenchDrawing.svg self))
                   (of_Z (100 + 50)) (of_Z (y_offset + 25)) "Top View"
                   10 "start" "normal" "black")))
          (y_offset + 25 + 20 + 270)%Z
    end.
Proof. reflexivity. Qed.
End BoundingBoxFacts.

(** The elements the three view loops add, read off the loop bodies. *)
Section ViewsFacts.
Context {F : Type} {A : Arith F}.

Lemma elements_fold {X : Type} (g : SVGDrawing.t F -> X -> SVGDrawing.t F)
    (h : X -> list (SVGDrawing.element F)) :
  (forall s x, SVGDrawing.elements (g s x) = SVGDrawing.elements s ++ h x) ->
  forall l s, SVGDrawing.elements (fold_left g l s)
              = SVGDrawing.elements s ++ flat_map h l.
Proof.
  intros Hg l. induction l as [|x l IH]; intro s; cbn.
  - now rewrite app_nil_r.
  - now rewrite IH, Hg, <- app_assoc.
Qed.

Lemma flat_map_singleton {X Y : Type} (f : X -> Y) (l : list X) :
  flat_map (fun x => [f x]) l = map f l.
Proof. induction l as [|x l IH]; cbn; [reflexivity | now rewrite IH]. Qed.

Lemma elements_top_view_panel bb (y0 : Z) (scale : F) (s : SVGDrawing.t F)
    (p : Panel.t F) :
  SVGDrawing.elements (BenchDrawing.top_view_panel bb 100 y0 scale s p)
  = SVGDrawing.elements s
    ++ Views.top_outline bb scale y0 p
       :: map (Views.hole_circle bb scale y0 p) (Panel.holes p).
Proof.
  unfold BenchDrawing.top_view_panel.
  rewrite (elements_fold _ (fun hole => [Views.hole_circle bb scale y0 p hole]))
    by reflexivity.
  rewrite flat_map_singleton.
  destruct p as [name w d t [x y z] holes material]. cbn.
  now rewrite <- app_assoc.
Qed.

Lemma elements_front_view_panel bb (y0 : Z) (scale : F) (s : SVGDrawing.t F)
    (p : Panel.t F) :
  SVGDrawing.elements (BenchDrawing.front_view_panel bb 450 y0 scale s p)
  = SVGDrawing.elements s ++ [Views.front_outline bb scale y0 p].
Proof. destruct p as [name w d t [x y z] holes material]. reflexivity. Qed.

Lemma elements_side_view_panel bb (y0 : Z) (scale : F) (s : SVGDrawing.t F)
    (p : Panel.t F) :
  SVGDrawing.elements (BenchDrawing.side_view_panel bb 800 y0 scale s p)
  = SVGDrawing.elements s ++ [Views.side_outline bb scale y0 p].
Proof. destruct p as [name w d t [x y z] holes material]. reflexivity. Qed.

Lemma draw_orthographic_views_elements (self : BenchDrawing.t F)
    (panels : list (Panel.t F)) (y_offset : Z) (scale : F)
    (bb : BenchDrawing.bbox F) :
  BenchDrawing.bounding_box panels = Some bb ->
  exists self',
    BenchDrawing.draw_orthographic_views self panels y_offset scale
    = Returned self' (y_offset + 315)%Z
    /\ SVGDrawing.elements (BenchDrawing.svg self')
       = SVGDrawing.elements (BenchDrawing.svg self)
         ++ Views.orthographic_elements bb panels y_offset scale.
Proof.
  intro Hbb. unfold BenchDrawing.draw_orthographic_views. rewrite Hbb.
  replace (y_offset + 25 + 20 + 270)%Z with (y_offset + 315)%Z by lia.
  eexists. split; [reflexivity|].
  cbn [BenchDrawing.svg BenchDrawing.with_svg].
  unfold BenchDrawing.draw_views.
  change (100 + 350 * 2)%Z with 800%Z. change (100 + 350)%Z with 450%Z.
  rewrite (elements_fold _ (fun p => [Views.side_outline bb scale (y_offset + 25 + 20) p]))
    by apply elements_side_view_panel.
  unfold SVGDrawing.text at 1. cbn [SVGDrawing.elements SVGDrawing.add_element].
  rewrite (elements_fold _ (fun p => [Views.front_outline bb scale (y_offset + 25 + 20) p]))
    by apply elements_front_view_panel.
  unfold SVGDrawing.text at 1. cbn [SVGDrawing.elements SVGDrawing.add_element].
  rewrite (elements_fold _ (fun p => Views.top_outline bb scale (y_offset + 25 + 20) p
             :: map (Views.hole_circle bb scale (y_offset + 25 + 20) p) (Panel.holes p)))
    by apply elements_top_view_panel.
  cbn [SVGDrawing.text SVGDrawing.elements SVGDrawing.add_element].
  rewrite !flat_map_singleton.
  unfold Views.orthographic_elements, Views.caption.
  replace (y_offset + 25 + 20)%Z with (y_offset + 45)%Z by lia.
  replace (y_offset + 45 - 20)%Z with (y_offset + 25)%Z by lia.
  cbn [Z.add Pos.add Pos.succ Z.mul Pos.mul].
  rewrite <- !app_assoc. reflexivity.
Qed.
End ViewsFacts.

Lemma float_ltb_irrefl (a : float) : PrimFloat.ltb a a = false.
Proof.
  rewrite ltb_spec. unfold SFltb.
  destruct (Prim2SF a) as [s|s| |s m e]; cbn; try reflexivity.
  - destruct s; reflexivity.
  - destruct s; rewrite Z.compare_refl;
      change (Pos.compare_cont Eq m m) with (Pos.compare m m);
      rewrite Pos.compare_refl; reflexivity.
Qed.

Lemma SFltb_trans (a b c : spec_float) :
  SFltb a b = true -> SFltb b c = true -> SFltb a c = true.
Proof.
  unfold SFltb.
  destruct a as [sa|sa| |sa ma ea], b as [sb|sb| |sb mb eb], c as [sc|sc| |sc mc ec];
    cbn; try discriminate; try reflexivity;
    repeat match goal with s : bool |- _ => destruct s end;
    cbn; try discriminate; try reflexivity;
    repeat match goal with
    | |- context [Pos.compare_cont Eq ?x ?y] =>
        change (Pos.compare_cont Eq x y) with (Pos.compare x y);
        destruct (Pos.compare_spec x y)
    | |- context [Z.compare ?x ?y] => destruct (Z.compare_spec x y)
    end; cbn; try discriminate; try reflexivity; intros; exfalso; lia.
Qed.

Lemma float_ltb_trans (a b c : float) :
  PrimFloat.ltb a b = true -> PrimFloat.ltb b c = true -> PrimFloat.ltb a c = true.
Proof. rewrite !ltb_spec. apply SFltb_trans. Qed.

(** C9: the bounding box of the orthographic views is the coordinate-wise
    minimum and maximum over the corners of all panels: each bound is the
    [min] or [max] scan over all corners, is the coordinate of some corner,
    and no corner of any panel lies outside it; it is computed once and the
    top, front and side views are all drawn with it: the call adds, after
    the two captions, the top outline and the hole circles of every panel
    measured from that box's minimum x and y, then the front outlines
    measured from its minimum x and z, then the side outlines measured from
    its minimum y and z, and nothing else; for the two-panel assembly above
    its X range is [0, 30]. *)
Theorem bounding_box_is_global_min_max (panels : list (Panel.t float)) :
  (panels <> [] -> exists bb, BenchDrawing.bounding_box panels = Some bb)
  /\ (forall bb, BenchDrawing.bounding_box panels = Some bb ->
        (py_min (map Point3D.x (BenchDrawing.all_corners panels)) = Some (BenchDrawing.min_x bb)
         /\ py_max (map Point3D.x (BenchDrawing.all_corners panels)) = Some (BenchDrawing.max_x bb)
         /\ py_min (map Point3D.y (BenchDrawing.all_corners panels)) = Some (BenchDrawing.min_y bb)
         /\ py_max (map Point3D.y (BenchDrawing.all_corners panels)) = Some (BenchDrawing.max_y bb)
         /\ py_min (map Point3D.z (BenchDrawing.all_corners panels)) = Some (BenchDrawing.min_z bb)
         /\ py_max (map Point3D.z (BenchDrawing.all_corners panels)) = Some (BenchDrawing.max_z bb))
        /\ (forall p c, In p panels -> In c (Panel.get_corners p) ->
              (Point3D.x c <? BenchDrawing.min_x bb)%float = false
              /\ (BenchDrawing.max_x bb <? Point3D.x c)%float = false
              /\ (Point3D.y c <? BenchDrawing.min_y bb)%float = false
              /\ (BenchDrawing.max_y bb <? Point3D.y c)%float = false
              /\ (Point3D.z c <? BenchDrawing.min_z bb)%float = false
              /\ (BenchDrawing.max_z bb <? Point3D.z c)%float = false)
        /\ In (BenchDrawing.min_x bb) (map Point3D.x (BenchDrawing.all_corners panels))
        /\ In (BenchDrawing.max_x bb) (map Point3D.x (BenchDrawing.all_corners panels))
        /\ In (BenchDrawing.min_y bb) (map Point3D.y (BenchDrawing.all_corners panels))
        /\ In (BenchDrawing.max_y bb) (map Point3D.y (BenchDrawing.all_corners panels))
        /\ In (BenchDrawing.min_z bb) (map Point3D.z (BenchDrawing.all_corners panels))
        /\ In (BenchDrawing.max_z bb) (map Point3D.z (BenchDrawing.all_corners panels)))
  /\ (forall self y_offset scale,
        BenchDrawing.draw_orthographic_views self panels y_offset scale
        = match BenchDrawing.bounding_box panels with
          | None =>
              Raised (BenchDrawing.with_svg self
                        (SVGDrawing.text (BenchDrawing.svg self) (of_Z 50) (of_Z y_offset)
                           "ORTHOGRAPHIC VIEWS" 12 "start" "normal" "black"))
                     ValueError
          | Some bb =>
              Returned
                (BenchDrawing.with_svg self
                   (BenchDrawing.draw_views bb panels (y_offset + 25 + 20) scale
                      (SVGDrawing.text
                         (SVGDrawing.text (BenchDrawing.svg self) (of_Z 50) (of_Z y_offset)
                            "ORTHOGRAPHIC VIEWS" 12 "start" "normal" "black")
                         (of_Z (100 + 50)) (of_Z (y_offset + 25)) "Top View"
                         10 "start" "normal" "black")))
                (y_offset + 25 + 20 + 270)%Z
          end)
  /\ (forall self y_offset scale bb,
        BenchDrawing.bounding_box panels = Some bb ->
        exists self',
          BenchDrawing.draw_orthographic_views self panels y_offset scale
          = Returned self' (y_offset + 315)%Z
          /\ SVGDrawing.elements (BenchDrawing.svg self')
             = SVGDrawing.elements (BenchDrawing.svg self)
               ++ Views.orthographic_elements bb panels y_offset scale)
  /\ option_map (fun bb => (BenchDrawing.min_x bb, BenchDrawing.max_x bb))
                (BenchDrawing.bounding_box two_panel_assembly)
     = Some (of_Z 0, of_Z 30).
Proof.
  split; [|split; [|split; [|split]]].
  - intro Hne. pose proof (bounding_box_scans panels) as S.
    destruct panels as [|p rest]; [congruence|].
    destruct S as (bb & E & _). now exists bb.
  - intros bb Hbb.
    pose proof (bounding_box_fields panels Hbb) as Hf.
    split; [exact Hf|].
    destruct Hf as (Hx1 & Hx2 & Hy1 & Hy2 & Hz1 & Hz2).
    apply (@py_min_spec float Binary64 float_ltb_irrefl float_ltb_trans) in Hx1, Hy1, Hz1.
    apply (@py_max_spec float Binary64 float_ltb_irrefl float_ltb_trans) in Hx2, Hy2, Hz2.
    split; [|intuition].
    intros p c Hp Hc.
    assert (Hin : In c (BenchDrawing.all_corners panels))
      by (apply all_corners_In; eauto).
    repeat split;
      match goal with
      | H : In _ (map ?proj _) /\ _ |- context [?proj c] =>
          apply (proj2 H), in_map, Hin
      end.
  - intros. apply draw_orthographic_views_one_box.
  - intros self y_offset scale bb Hbb.
    exact (draw_orthographic_views_elements self panels y_offset scale Hbb).
  - vm_compute. reflexivity.
Qed.

Lemma bounding_box_is_global_min_max_witness :
  exists bb, BenchDrawing.bounding_box two_panel_assembly = Some bb.
Proof.
  apply (bounding_box_is_global_min_max two_panel_assembly). discriminate.
Defined.

(* ------------------------------------------------------------------ *)
(** ** Connection lines and assembly arrows *)

Section ConnectionFacts.
Context {F : Type} {A : Arith F}.

Lemma mesh_traces_no_line (suffix : string) (visible : bool)
    (panels : list (Mesh.t F)) (ts : list (Viewer.trace F)) :
  Viewer.mesh_traces suffix visible panels = Some ts ->
  filter Viewer.is_line ts = [] /\ List.length ts = List.length panels.
Proof.
  revert ts. induction panels as [|m rest IH]; intros ts; cbn.
  - intros [= <-]. auto.
  - destruct (Mesh.name m); [|discriminate].
    destruct (Viewer.mesh_traces suffix visible rest) as [ts'|]; [|discriminate].
    intros [= <-]. cbn. destruct (IH ts' eq_refl) as [-> ->]. auto.
Qed.

Lemma connection_lines_cases (exploded_panels : list (Mesh.t F)) :
  Viewer.connection_lines exploded_panels
  = match exploded_panels with
    | [e0; e1; e2] =>
        [ Viewer.segment (Viewer.mean_axis0 (Mesh.vertices e0))
                         (Viewer.mean_axis0 (Mesh.vertices e1));
          Viewer.segment (Viewer.mean_axis0 (Mesh.vertices e0))
                         (Viewer.mean_axis0 (Mesh.vertices e2)) ]
    | _ => []
    end.
Proof.
  destruct exploded_panels as [|e0 [|e1 [|e2 [|e3 r]]]]; reflexivity.
Qed.

Lemma connection_lines_all_lines (exploded_panels : list (Mesh.t F)) :
  filter Viewer.is_line (Viewer.connection_lines exploded_panels)
  = Viewer.connection_lines exploded_panels.
Proof.
  rewrite connection_lines_cases.
  destruct exploded_panels as [|e0 [|e1 [|e2 [|e3 r]]]]; reflexivity.
Qed.

(** The centre [np.mean] finds for a box mesh is the centroid of the 8
    corners of the panel with the same anchor and dimensions. *)
Lemma mean_axis0_box_mesh (x y z width depth thickness : F)
    (color name material : string) (holes : list (Point3D.t F)) :
  let c := Spec.centroid (Panel.get_corners
             (Panel.mk name width depth thickness (Point3D.mk x y z) holes material)) in
  Viewer.mean_axis0 (Mesh.vertices
    (Viewer.create_box_mesh x y z width depth thickness color))
  = [Point3D.x c; Point3D.y c; Point3D.z c].
Proof. reflexivity. Qed.

Lemma flat_map_seq_shift {X : Type} (f : nat -> list X) (k n : nat) :
  flat_map f (seq (S k) n) = flat_map (fun i => f (S i)) (seq k n).
Proof.
  revert k. induction n as [|n IH]; intro k; cbn; [reflexivity|].
  now rewrite IH.
Qed.

Lemma arrow_anchors_cons (a b : Panel.t F) (rest : list (Panel.t F)) :
  BenchDrawing.arrow_anchors (a :: b :: rest)
  = (BenchDrawing.item (Panel.get_corners a) 6, BenchDrawing.item (Panel.get_corners b) 4)
    :: BenchDrawing.arrow_anchors (b :: rest).
Proof.
  unfold BenchDrawing.arrow_anchors.
  cbn [List.length Nat.sub]. rewrite Nat.sub_0_r.
  cbn [seq flat_map]. rewrite flat_map_seq_shift.
  cbn [nth_error Nat.add app]. reflexivity.
Qed.

(** The assembly arrows follow list adjacency: arrow [i] runs from
    corner 6 of panel [i] to corner 4 of panel [i + 1]. *)
Lemma arrow_anchors_adjacent (panels : list (Panel.t F)) :
  List.length (BenchDrawing.arrow_anchors panels) = (List.length panels - 1)%nat
  /\ forall i a b,
       nth_error panels i = Some a -> nth_error panels (S i) = Some b ->
       nth_error (BenchDrawing.arrow_anchors panels) i
       = Some (BenchDrawing.item (Panel.get_corners a) 6,
               BenchDrawing.item (Panel.get_corners b) 4).
Proof.
  induction panels as [|a [|b rest] IH].
  - split; [reflexivity|]. intros [|i]; discriminate.
  - split; [reflexivity|]. intros [|i] ? ? ?; [discriminate|].
    destruct i; discriminate.
  - rewrite arrow_anchors_cons. destruct IH as [IHl IHn]. split.
    + cbn [List.length] in *. rewrite IHl. lia.
    + intros [|i] p q Hp Hq.
      * cbn in Hp, Hq. injection Hp as <-. injection Hq as <-. reflexivity.
      * cbn [nth_error]. apply IHn; assumption.
Qed.

Context {M : Libm F}.

Lemma assembly_arrows_elements (x_center y_center : Z) (scale : F)
    (anchors : list (Point3D.t F * Point3D.t F)) (s : SVGDrawing.t F) :
  SVGDrawing.elements
    (fold_left (BenchDrawing.assembly_arrow x_center y_center scale) anchors s)
  = SVGDrawing.elements s
    ++ map (BenchDrawing.arrow_element x_center y_center scale) anchors.
Proof.
  revert s. induction anchors as [|[p1 p2] l IH]; intro s; cbn [fold_left map].
  - now rewrite app_nil_r.
  - rewrite IH. cbn. rewrite <- app_assoc. reflexivity.
Qed.

(** C2, path by path: in the 3D viewer the connection lines are the
    segments between the centres (means of the 8 vertices) of the panels
    named by the fixed index pairs (0, 1) and (0, 2), drawn only for an
    assembly of exactly 3 exploded panels; in the SVG exploded view the
    assembly arrows are the projected segments from corner 6 of panel [i]
    to corner 4 of panel [i + 1], one per pair of neighbours in the panel
    list. *)
Theorem connection_lines_by_path :
  (forall concept_name assembled_panels exploded_panels fig,
      Viewer.create_interactive_viewer concept_name assembled_panels exploded_panels
      = inr fig ->
      filter Viewer.is_line (Viewer.data fig) = Viewer.connection_lines exploded_panels)
  /\ (forall exploded_panels : list (Mesh.t F),
        Viewer.connections exploded_panels
        = (if Nat.eqb (List.length exploded_panels) 3 then [(0, 1); (0, 2)] else [])%nat
        /\ Viewer.connection_lines exploded_panels
           = match exploded_panels with
             | [e0; e1; e2] =>
                 [ Viewer.segment (Viewer.mean_axis0 (Mesh.vertices e0))
                                  (Viewer.mean_axis0 (Mesh.vertices e1));
                   Viewer.segment (Viewer.mean_axis0 (Mesh.vertices e0))
                                  (Viewer.mean_axis0 (Mesh.vertices e2)) ]
             | _ => []
             end)
  /\ (forall x y z width depth thickness color name material holes,
        let c := Spec.centroid (Panel.get_corners
                   (Panel.mk name width depth thickness (Point3D.mk x y z)
                             holes material)) in
        Viewer.mean_axis0 (Mesh.vertices
          (Viewer.create_box_mesh x y z width depth thickness color))
        = [Point3D.x c; Point3D.y c; Point3D.z c])
  /\ (forall self panels y_offset scale explode_distance,
        let exploded_panels := BenchDrawing.explode_panels panels explode_distance in
        let drawn := SVGDrawing.elements (BenchDrawing.svg (fst
          (BenchDrawing.draw_exploded_view self panels y_offset scale explode_distance))) in
        let faces := SVGDrawing.elements
          (fold_left (BenchDrawing.exploded_panel_faces 400 (y_offset + 25 + 150) scale)
             exploded_panels
             (SVGDrawing.text (BenchDrawing.svg self) (of_Z 50) (of_Z y_offset)
                "EXPLODED ASSEMBLY" 12 "start" "normal" "black")) in
        drawn = faces ++ map (BenchDrawing.arrow_element 400 (y_offset + 25 + 150) scale)
                             (BenchDrawing.arrow_anchors exploded_panels))
  /\ (forall panels : list (Panel.t F),
        List.length (BenchDrawing.arrow_anchors panels) = (List.length panels - 1)%nat
        /\ forall i a b,
             nth_error panels i = Some a -> nth_error panels (S i) = Some b ->
             nth_error (BenchDrawing.arrow_anchors panels) i
             = Some (Point3D.mk
                       (Point3D.x (Panel.position a) + Panel.width a)%num
                       (Point3D.y (Panel.position a) + Panel.depth a)%num
                       (Point3D.z (Panel.position a) + Panel.thickness a)%num,
                     Point3D.mk
                       (Point3D.x (Panel.position b))
                       (Point3D.y (Panel.position b))
                       (Point3D.z (Panel.position b) + Panel.thickness b)%num)).
Proof.
  split; [|split; [|split; [|split]]].
  - intros cn asm expl fig. unfold Viewer.create_interactive_viewer.
    destruct (Viewer.mesh_traces "" true asm) as [ta|] eqn:Ea; [|discriminate].
    destruct (Viewer.mesh_traces " (Exploded)" false expl) as [te|] eqn:Ee;
      [|discriminate].
    intros [= <-]. cbn [Viewer.data].
    rewrite !filter_app, connection_lines_all_lines.
    rewrite (proj1 (mesh_traces_no_line _ _ _ Ea)).
    rewrite (proj1 (mesh_traces_no_line _ _ _ Ee)). reflexivity.
  - intro expl. split; [reflexivity | apply connection_lines_cases].
  - intros. apply mean_axis0_box_mesh.
  - intros. unfold BenchDrawing.draw_exploded_view. cbn [fst BenchDrawing.svg
      BenchDrawing.with_svg]. apply assembly_arrows_elements.
  - intro panels. destruct (arrow_anchors_adjacent panels) as [Hl Hn].
    split; [exact Hl|]. intros i a b Ha Hb. now rewrite (Hn i a b Ha Hb).
Qed.
End ConnectionFacts.

Lemma connection_lines_by_path_witness :
  exists fig,
    Viewer.create_interactive_viewer "Concept 4: Thin Slab Legs"
      (Viewer.create_concept_4_assembled (F := float)) Viewer.create_concept_4_exploded
    = inr fig
    /\ filter Viewer.is_line (Viewer.data fig)
       = Viewer.connection_lines Viewer.create_concept_4_exploded.
Proof.
  eexists. split; [reflexivity|].
  apply (proj1 (@connection_lines_by_path float Binary64 libm_identity)
           "Concept 4: Thin Slab Legs" Viewer.create_concept_4_assembled
           Viewer.create_concept_4_exploded).
  reflexivity.
Defined.

(** C2 fails for the SVG exploded view: for the concept 4 panels at the
    default distance 5.0 the first assembly arrow starts at corner 6 of the
    seat, (60, 11, 11.125), which is the centroid of no panel. *)
Lemma svg_arrows_do_not_join_centroids :
  let exploded_panels :=
    BenchDrawing.explode_panels (create_concept_4_slab_legs (F := float)) (lit 50 10) in
  map (fun s => Point3D.equal (fst s) (Point3D.mk (lit 600 10) (lit 110 10) (lit 11125 1000)))
      (BenchDrawing.arrow_anchors exploded_panels) = [true; false]
  /\ map (fun p => Point3D.x (Spec.centroid (Panel.get_corners p))) exploded_panels
     = [lit 300 10; lit 55 10; lit 545 10]
  /\ ~ Forall (Spec.joins_centroids exploded_panels)
              (BenchDrawing.arrow_anchors exploded_panels)
  /\ ~ (forall (panels : list (Panel.t float)) (D : float),
          Forall (Spec.joins_centroids (BenchDrawing.explode_panels panels D))
                 (BenchDrawing.arrow_anchors (BenchDrawing.explode_panels panels D))).
Proof.
  cbv zeta.
  assert (N : ~ Forall (Spec.joins_centroids
                          (BenchDrawing.explode_panels
                             (create_concept_4_slab_legs (F := float)) (lit 50 10)))
                       (BenchDrawing.arrow_anchors
                          (BenchDrawing.explode_panels
                             (create_concept_4_slab_legs (F := float)) (lit 50 10)))).
  { intro H.
    assert (C : forall a,
               In a (BenchDrawing.explode_panels
                       (create_concept_4_slab_legs (F := float)) (lit 50 10)) ->
               PrimFloat.Leibniz.eqb
                 (Point3D.x (Spec.centroid (Panel.get_corners a))) (lit 600 10) = false).
    { intros a Ha. vm_compute in Ha.
      destruct Ha as [<-|[<-|[<-|[]]]]; vm_compute; reflexivity. }
    rewrite explode_panels_map in H at 2. cbn [create_concept_4_slab_legs
      BenchDrawing.enumerate map List.length fst snd] in H.
    rewrite arrow_anchors_cons in H. apply Forall_inv in H.
    destruct H as (a & b & Ha & _ & E).
    pose proof (f_equal (fun s : Point3D.t float * Point3D.t float =>
                           PrimFloat.Leibniz.eqb (Point3D.x (fst s)) (lit 600 10)) E) as E'.
    cbn [fst] in E'. rewrite (C a Ha) in E'. vm_compute in E'. discriminate. }
  split; [vm_compute; reflexivity|]. split; [vm_compute; reflexivity|].
  split; [exact N|]. intro H. exact (N (H _ _)).
Qed.

(* ------------------------------------------------------------------ *)
(** ** Drawings only grow *)

Section ExtendFacts.
Context {F : Type} {A : Arith F}.
Variable P : SVGDrawing.element F -> Prop.
Hypothesis P_other : forall e, Drawn.kind_of e <> Drawn.KRect -> P e.

Lemma extends_refl (s : SVGDrawing.t F) : Drawn.extends P s s.
Proof. exists []. repeat split; auto. now rewrite app_nil_r. Qed.

Lemma extends_add (s s1 : SVGDrawing.t F) (e : SVGDrawing.element F) :
  P e -> Drawn.extends P s s1 -> Drawn.extends P s (SVGDrawing.add_element s1 e).
Proof.
  intros He (new & (E & D & W & H) & Hn). exists (new ++ [e]).
  split; [|apply Forall_app; auto].
  repeat split; cbn; auto. now rewrite E, app_assoc.
Qed.

Lemma extends_fold {X : Type} (g : SVGDrawing.t F -> X -> SVGDrawing.t F)
    (s : SVGDrawing.t F) :
  (forall s1 x, Drawn.extends P s s1 -> Drawn.extends P s (g s1 x)) ->
  forall l s1, Drawn.extends P s s1 -> Drawn.extends P s (fold_left g l s1).
Proof. intros Hg l. induction l as [|x l IH]; intros s1 H; cbn; auto. Qed.

Lemma extends_dimension_line {M : Libm F} (s s1 : SVGDrawing.t F)
    (x1 y1 x2 y2 : F) (label : string) (offset : F) :
  Drawn.extends P s s1 ->
  Drawn.extends P s (SVGDrawing.dimension_line s1 x1 y1 x2 y2 label offset).
Proof.
  intro H. unfold SVGDrawing.dimension_line.
  destruct (eqb _ _); [exact H|].
  unfold SVGDrawing.line.
  repeat (apply extends_add; [apply P_other; discriminate|]). exact H.
Qed.
End ExtendFacts.

Ltac extends_tac :=
  cbv zeta;
  unfold SVGDrawing.text, SVGDrawing.line, SVGDrawing.polygon, SVGDrawing.circle;
  repeat first
    [ assumption
    | apply extends_refl
    | apply extends_dimension_line; [assumption|]
    | apply extends_fold; [intros ? ? ?|]
    | apply extends_add; [match goal with H : _ |- _ => apply H; discriminate end|] ].

Section FrameFacts.
Context {F : Type} {A : Arith F} {M : Libm F} {Fm : Format F}.
Variable P : SVGDrawing.element F -> Prop.
Hypothesis P_other : forall e, Drawn.kind_of e <> Drawn.KRect -> P e.

Lemma draw_title_block_extends self y :
  Drawn.bench_extends P self (fst (BenchDrawing.draw_title_block self y)).
Proof.
  split; [reflexivity|]. unfold BenchDrawing.draw_title_block.
  cbn [fst BenchDrawing.svg BenchDrawing.with_svg]. extends_tac.
Qed.

Lemma draw_orthographic_views_extends self panels y scale :
  match BenchDrawing.draw_orthographic_views self panels y scale with
  | Returned self' _ | Raised self' _ => Drawn.bench_extends P self self'
  end.
Proof.
  unfold BenchDrawing.draw_orthographic_views. cbv zeta.
  destruct (BenchDrawing.bounding_box panels) as [bb|];
    (split; [reflexivity|]); cbn [BenchDrawing.svg BenchDrawing.with_svg].
  - unfold BenchDrawing.draw_views, BenchDrawing.top_view_panel,
      BenchDrawing.front_view_panel, BenchDrawing.side_view_panel. extends_tac.
  - extends_tac.
Qed.

Lemma draw_isometric_view_extends self panels y scale :
  Drawn.bench_extends P self (fst (BenchDrawing.draw_isometric_view self panels y scale)).
Proof.
  split; [reflexivity|]. unfold BenchDrawing.draw_isometric_view.
  cbn [fst BenchDrawing.svg BenchDrawing.with_svg].
  unfold BenchDrawing.isometric_panel_faces. extends_tac.
  unfold BenchDrawing.material_note. destruct x. extends_tac.
Qed.

Lemma draw_exploded_view_extends self panels y scale D :
  Drawn.bench_extends P self (fst (BenchDrawing.draw_exploded_view self panels y scale D)).
Proof.
  split; [reflexivity|]. unfold BenchDrawing.draw_exploded_view.
  cbn [fst BenchDrawing.svg BenchDrawing.with_svg].
  unfold BenchDrawing.exploded_panel_faces. extends_tac.
  unfold BenchDrawing.assembly_arrow. destruct x. extends_tac.
Qed.

(** The panel loop of [draw_flat_patterns], for a property [J] of the loop
    variables [x_offset] and [y_pos] that makes the outline satisfy [P]
    and survives one round. *)
Lemma flat_pattern_loop_extends (J : Z -> Z + F -> Prop) (y_offset : Z) (scale : F)
    (s : SVGDrawing.t F) :
  (forall xo yp w h fill stroke sw op, J xo yp ->
     P (SVGDrawing.Rect (of_Z xo) (BenchDrawing.to_float yp) w h fill stroke sw op)) ->
  (forall xo yp ph, J xo yp ->
     let yp' := inr (BenchDrawing.to_float yp + (ph + of_Z 80))%num in
     if BenchDrawing.past_limit yp' then J (xo + 400)%Z (inl y_offset) else J xo yp') ->
  forall panels s1 xo yp, J xo yp -> Drawn.extends P s s1 ->
    Drawn.extends P s
      (fst (fst (fold_left (BenchDrawing.flat_pattern_panel y_offset scale) panels
                           (s1, xo, yp)))).
Proof.
  intros HR HJ panels. induction panels as [|p l IH]; intros s1 xo yp Hj H; [exact H|].
  cbn [fold_left]. unfold BenchDrawing.flat_pattern_panel at 2. cbv zeta.
  specialize (HJ xo yp (Panel.depth p * scale)%num Hj). cbv zeta in HJ.
  match goal with |- context [fold_left _ l (if ?c then _ else _)] =>
    destruct c end; apply IH; try exact HJ;
  unfold BenchDrawing.flat_pattern_hole; extends_tac;
  unfold SVGDrawing.rect; (apply extends_add; [apply HR; exact Hj|exact H]).
Qed.

Lemma draw_flat_patterns_extends_with (J : Z -> Z + F -> Prop) self panels y scale :
  (forall xo yp w h fill stroke sw op, J xo yp ->
     P (SVGDrawing.Rect (of_Z xo) (BenchDrawing.to_float yp) w h fill stroke sw op)) ->
  (forall xo yp ph, J xo yp ->
     let yp' := inr (BenchDrawing.to_float yp + (ph + of_Z 80))%num in
     if BenchDrawing.past_limit yp' then J (xo + 400)%Z (inl (y + 35)%Z) else J xo yp') ->
  J 100%Z (inl (y + 35)%Z) ->
  Drawn.bench_extends P self (fst (BenchDrawing.draw_flat_patterns self panels y scale)).
Proof.
  intros HR HJ H0. unfold BenchDrawing.draw_flat_patterns. cbv zeta.
  match goal with |- context [fold_left ?g panels (?s1, ?xo, ?yp)] =>
    pose proof (@flat_pattern_loop_extends J (y + 35)%Z scale
                  (BenchDrawing.svg self) HR HJ panels s1 xo yp H0) as L;
    destruct (fold_left g panels (s1, xo, yp)) as [[s' xo'] yp']
  end.
  split; [reflexivity|]. cbn [fst BenchDrawing.svg BenchDrawing.with_svg] in *.
  apply L. extends_tac.
Qed.
End FrameFacts.

(* ------------------------------------------------------------------ *)
(** ** Counting the elements of a drawing *)

Section CountFacts.
Context {F : Type} {A : Arith F}.
Variable sel : Drawn.kind -> bool.

Lemma weight_add (k : Drawn.kind) (a b : nat) :
  Drawn.weight sel k (a + b) = (Drawn.weight sel k a + Drawn.weight sel k b)%nat.
Proof. unfold Drawn.weight. destruct (sel k); reflexivity. Qed.

Lemma list_sum_cons (a : nat) (l : list nat) :
  list_sum (a :: l) = (a + list_sum l)%nat.
Proof. reflexivity. Qed.

Lemma list_sum_weight {X : Type} (k : Drawn.kind) (c : X -> nat) (l : list X) :
  list_sum (map (fun x => Drawn.weight sel k (c x)) l)
  = Drawn.weight sel k (list_sum (map c l)).
Proof.
  induction l as [|x l IH]; cbn [map]; [unfold Drawn.weight; now destruct (sel k)|].
  now rewrite !list_sum_cons, IH, weight_add.
Qed.

Lemma list_sum_plus {X : Type} (a b : X -> nat) (l : list X) :
  list_sum (map (fun x => a x + b x)%nat l)
  = (list_sum (map a l) + list_sum (map b l))%nat.
Proof.
  induction l as [|x l IH]; cbn [map]; [reflexivity|].
  rewrite !list_sum_cons, IH. lia.
Qed.

Lemma list_sum_const {X : Type} (n : nat) (l : list X) :
  list_sum (map (fun _ => n) l) = (n * List.length l)%nat.
Proof.
  induction l as [|x l IH]; cbn [map List.length]; [cbn; lia|].
  rewrite list_sum_cons, IH. lia.
Qed.

Lemma count_add (s : SVGDrawing.t F) (e : SVGDrawing.element F) :
  Drawn.count sel (SVGDrawing.add_element s e)
  = (Drawn.count sel s + Drawn.weight sel (Drawn.kind_of e) 1)%nat.
Proof.
  unfold Drawn.count, Drawn.weight. cbn. rewrite filter_app, length_app. cbn.
  destruct (sel (Drawn.kind_of e)); reflexivity.
Qed.

Lemma count_fold {X : Type} (g : SVGDrawing.t F -> X -> SVGDrawing.t F) (c : X -> nat) :
  (forall s x, Drawn.count sel (g s x) = (Drawn.count sel s + c x)%nat) ->
  forall l s, Drawn.count sel (fold_left g l s)
              = (Drawn.count sel s + list_sum (map c l))%nat.
Proof.
  intros Hg l. induction l as [|x l IH]; intro s; cbn [fold_left map]; [cbn; lia|].
  rewrite IH, Hg, list_sum_cons. lia.
Qed.

Lemma count_dimension_line {M : Libm F} (s : SVGDrawing.t F) (x1 y1 x2 y2 : F)
    (label : string) (offset : F) :
  Drawn.count sel (SVGDrawing.dimension_line s x1 y1 x2 y2 label offset)
  = (Drawn.count sel s
     + (if (sqrt ((x2 - x1) * (x2 - x1) + (y2 - y1) * (y2 - y1)) =? of_Z 0)%num
        then 0 else Drawn.weight sel Drawn.KLine 3 + Drawn.weight sel Drawn.KLabel 1))%nat.
Proof.
  unfold SVGDrawing.dimension_line. cbv zeta.
  destruct (eqb _ _); [lia|].
  unfold SVGDrawing.line. rewrite !count_add. cbn [Drawn.kind_of].
  unfold Drawn.weight. destruct (sel Drawn.KLine), (sel Drawn.KLabel); lia.
Qed.

Ltac count_prims :=
  cbv zeta;
  unfold SVGDrawing.text, SVGDrawing.line, SVGDrawing.polygon, SVGDrawing.circle,
    SVGDrawing.rect;
  rewrite ?count_add; cbn [Drawn.kind_of].

Lemma count_top_view_panel bb xs yo scale (s : SVGDrawing.t F) (p : Panel.t F) :
  Drawn.count sel (BenchDrawing.top_view_panel bb xs yo scale s p)
  = (Drawn.count sel s + (Drawn.weight sel Drawn.KPolygon 1
       + Drawn.weight sel Drawn.KCircle (List.length (Panel.holes p))))%nat.
Proof.
  unfold BenchDrawing.top_view_panel. cbv zeta.
  rewrite (count_fold _ (fun _ => Drawn.weight sel Drawn.KCircle 1))
    by (intros; count_prims; reflexivity).
  count_prims. rewrite list_sum_weight, list_sum_const, Nat.mul_1_l. lia.
Qed.

Lemma count_front_view_panel bb xs yo scale (s : SVGDrawing.t F) (p : Panel.t F) :
  Drawn.count sel (BenchDrawing.front_view_panel bb xs yo scale s p)
  = (Drawn.count sel s + Drawn.weight sel Drawn.KPolygon 1)%nat.
Proof. unfold BenchDrawing.front_view_panel. count_prims. reflexivity. Qed.

Lemma count_side_view_panel bb xs yo scale (s : SVGDrawing.t F) (p : Panel.t F) :
  Drawn.count sel (BenchDrawing.side_view_panel bb xs yo scale s p)
  = (Drawn.count sel s + Drawn.weight sel Drawn.KPolygon 1)%nat.
Proof. unfold BenchDrawing.side_view_panel. count_prims. reflexivity. Qed.

Lemma count_draw_views bb panels yo scale (s : SVGDrawing.t F) :
  Drawn.count sel (BenchDrawing.draw_views bb panels yo scale s)
  = (Drawn.count sel s + Drawn.weight sel Drawn.KText 2
     + Drawn.weight sel Drawn.KPolygon (3 * List.length panels)
     + Drawn.weight sel Drawn.KCircle (Drawn.hole_count panels))%nat.
Proof.
  unfold BenchDrawing.draw_views. cbv zeta.
  rewrite (count_fold _ _ (count_side_view_panel _ _ _ _)).
  count_prims.
  rewrite (count_fold _ _ (count_front_view_panel _ _ _ _)).
  count_prims.
  rewrite (count_fold _ _ (count_top_view_panel _ _ _ _)).
  rewrite list_sum_plus, !list_sum_weight, !list_sum_const.
  unfold Drawn.hole_count, Drawn.weight.
  destruct (sel Drawn.KText), (sel Drawn.KPolygon), (sel Drawn.KCircle); lia.
Qed.

Context {M : Libm F} {Fm : Format F}.

Lemma count_isometric_panel_faces xc yc scale (s : SVGDrawing.t F) (p : Panel.t F) :
  Drawn.count sel (BenchDrawing.isometric_panel_faces xc yc scale s p)
  = (Drawn.count sel s + Drawn.weight sel Drawn.KPolygon 3)%nat.
Proof.
  unfold BenchDrawing.isometric_panel_faces. count_prims.
  unfold Drawn.weight. destruct (sel Drawn.KPolygon); lia.
Qed.

Lemma count_material_note xc my (s : SVGDrawing.t F) (ip : nat * Panel.t F) :
  Drawn.count sel (BenchDrawing.material_note xc my s ip)
  = (Drawn.count sel s + Drawn.weight sel Drawn.KText 1)%nat.
Proof. destruct ip. unfold BenchDrawing.material_note. count_prims. reflexivity. Qed.

Lemma count_exploded_panel_faces xc yc scale (s : SVGDrawing.t F) (p : Panel.t F) :
  Drawn.count sel (BenchDrawing.exploded_panel_faces xc yc scale s p)
  = (Drawn.count sel s
     + (Drawn.weight sel Drawn.KPolygon 2 + Drawn.weight sel Drawn.KText 1))%nat.
Proof.
  unfold BenchDrawing.exploded_panel_faces. count_prims.
  unfold Drawn.weight. destruct (sel Drawn.KPolygon), (sel Drawn.KText); lia.
Qed.

Lemma count_assembly_arrow xc yc scale (s : SVGDrawing.t F)
    (a : Point3D.t F * Point3D.t F) :
  Drawn.count sel (BenchDrawing.assembly_arrow xc yc scale s a)
  = (Drawn.count sel s + Drawn.weight sel Drawn.KLine 1)%nat.
Proof. destruct a. unfold BenchDrawing.assembly_arrow. count_prims. reflexivity. Qed.

Lemma count_draw_title_block (self : BenchDrawing.t F) (y : Z) :
  Drawn.count sel (BenchDrawing.svg (fst (BenchDrawing.draw_title_block self y)))
  = (Drawn.count sel (BenchDrawing.svg self)
     + Drawn.weight sel Drawn.KText 2 + Drawn.weight sel Drawn.KLine 1)%nat.
Proof.
  unfold BenchDrawing.draw_title_block. cbn [fst BenchDrawing.svg BenchDrawing.with_svg].
  count_prims. unfold Drawn.weight. destruct (sel Drawn.KText); lia.
Qed.

Lemma count_draw_isometric_view (self : BenchDrawing.t F) panels y scale :
  Drawn.count sel (BenchDrawing.svg (fst (BenchDrawing.draw_isometric_view self panels y scale)))
  = (Drawn.count sel (BenchDrawing.svg self)
     + Drawn.weight sel Drawn.KText (2 + List.length panels)
     + Drawn.weight sel Drawn.KPolygon (3 * List.length panels))%nat.
Proof.
  unfold BenchDrawing.draw_isometric_view. cbn [fst BenchDrawing.svg BenchDrawing.with_svg].
  cbv zeta.
  rewrite (count_fold _ _ (count_material_note _ _)).
  count_prims.
  rewrite (count_fold _ _ (count_isometric_panel_faces _ _ _)).
  count_prims.
  rewrite !list_sum_const, enumerate_length.
  unfold Drawn.weight. destruct (sel Drawn.KText), (sel Drawn.KPolygon); lia.
Qed.

Lemma count_draw_exploded_view (self : BenchDrawing.t F) panels y scale D :
  Drawn.count sel
    (BenchDrawing.svg (fst (BenchDrawing.draw_exploded_view self panels y scale D)))
  = (Drawn.count sel (BenchDrawing.svg self)
     + Drawn.weight sel Drawn.KText (1 + List.length panels)
     + Drawn.weight sel Drawn.KPolygon (2 * List.length panels)
     + Drawn.weight sel Drawn.KLine (List.length panels - 1))%nat.
Proof.
  unfold BenchDrawing.draw_exploded_view. cbn [fst BenchDrawing.svg BenchDrawing.with_svg].
  cbv zeta.
  rewrite (count_fold _ _ (count_assembly_arrow _ _ _)).
  rewrite (count_fold _ _ (count_exploded_panel_faces _ _ _)).
  count_prims.
  rewrite !list_sum_const, (proj1 (arrow_anchors_adjacent _)), explode_panels_length.
  unfold Drawn.weight.
  destruct (sel Drawn.KText), (sel Drawn.KPolygon), (sel Drawn.KLine); lia.
Qed.

Lemma count_flat_pattern_hole px py scale (s : SVGDrawing.t F) (h : Point3D.t F) :
  Drawn.count sel (BenchDrawing.flat_pattern_hole px py scale s h)
  = (Drawn.count sel s
     + (Drawn.weight sel Drawn.KCircle 1 + Drawn.weight sel Drawn.KText 1))%nat.
Proof. unfold BenchDrawing.flat_pattern_hole. count_prims. lia. Qed.
End CountFacts.

(** The flat patterns: what one panel and the whole loop add, with the
    number of dimension lines that were not skipped. *)
Section FlatPatternCounts.
Context {F : Type} {A : Arith F} {M : Libm F} {Fm : Format F}.

Lemma count_flat_pattern_panel (y_offset : Z) (scale : F) (s : SVGDrawing.t F)
    (xo : Z) (yp : Z + F) (p : Panel.t F) :
  exists m, (m <= 2)%nat /\
    forall sel,
      Drawn.count sel
        (fst (fst (BenchDrawing.flat_pattern_panel y_offset scale (s, xo, yp) p)))
      = (Drawn.count sel s
         + Drawn.weight sel Drawn.KRect 1
         + Drawn.weight sel Drawn.KCircle (List.length (Panel.holes p))
         + Drawn.weight sel Drawn.KText (2 + List.length (Panel.holes p))
         + Drawn.weight sel Drawn.KLine (3 * m)
         + Drawn.weight sel Drawn.KLabel m)%nat.
Proof.
  unfold BenchDrawing.flat_pattern_panel. cbv zeta.
  match goal with
  | |- context [SVGDrawing.dimension_line
                  (SVGDrawing.dimension_line _ ?a1 ?b1 ?c1 ?d1 _ _) ?a2 ?b2 ?c2 ?d2 _ _] =>
      exists ((if (sqrt ((c1 - a1) * (c1 - a1) + (d1 - b1) * (d1 - b1)) =? of_Z 0)%num
               then 0 else 1)
              + (if (sqrt ((c2 - a2) * (c2 - a2) + (d2 - b2) * (d2 - b2)) =? of_Z 0)%num
                 then 0 else 1))%nat
  end.
  split; [repeat destruct (eqb _ _); cbn; lia|].
  intro sel.
  match goal with |- context [if ?c then _ else _] =>
    match c with BenchDrawing.past_limit _ => destruct c end end;
    cbn [fst]; unfold SVGDrawing.text; rewrite !count_add, !count_dimension_line;
    rewrite (count_fold sel _ _ (count_flat_pattern_hole sel _ _ _));
    unfold SVGDrawing.rect; rewrite count_add; cbn [Drawn.kind_of];
    rewrite list_sum_const; unfold Drawn.weight;
    repeat destruct (eqb _ _);
    destruct (sel Drawn.KRect), (sel Drawn.KCircle), (sel Drawn.KText),
      (sel Drawn.KLine), (sel Drawn.KLabel); cbn; lia.
Qed.

Lemma count_flat_pattern_loop (y_offset : Z) (scale : F) (panels : list (Panel.t F)) :
  forall (s : SVGDrawing.t F) (xo : Z) (yp : Z + F),
  exists m, (m <= 2 * List.length panels)%nat /\
    forall sel,
      Drawn.count sel
        (fst (fst (fold_left (BenchDrawing.flat_pattern_panel y_offset scale) panels
                             (s, xo, yp))))
      = (Drawn.count sel s
         + Drawn.weight sel Drawn.KRect (List.length panels)
         + Drawn.weight sel Drawn.KCircle (Drawn.hole_count panels)
         + Drawn.weight sel Drawn.KText (2 * List.length panels + Drawn.hole_count panels)
         + Drawn.weight sel Drawn.KLine (3 * m)
         + Drawn.weight sel Drawn.KLabel m)%nat.
Proof.
  induction panels as [|p l IH]; intros s xo yp.
  - exists 0%nat. split; [cbn; lia|]. intro sel. cbn. unfold Drawn.weight.
    repeat match goal with |- context [sel ?k] => destruct (sel k) end; lia.
  - cbn [fold_left].
    destruct (count_flat_pattern_panel y_offset scale s xo yp p) as (m1 & Hm1 & H1).
    destruct (BenchDrawing.flat_pattern_panel y_offset scale (s, xo, yp) p)
      as [[s1 xo1] yp1].
    destruct (IH s1 xo1 yp1) as (m2 & Hm2 & H2).
    exists (m1 + m2)%nat. split; [cbn [List.length]; lia|].
    intro sel. rewrite H2. cbn [fst] in H1. rewrite H1.
    unfold Drawn.hole_count. cbn [map List.length]. rewrite list_sum_cons.
    unfold Drawn.weight.
    destruct (sel Drawn.KRect), (sel Drawn.KCircle), (sel Drawn.KText),
      (sel Drawn.KLine), (sel Drawn.KLabel); lia.
Qed.

Lemma count_draw_flat_patterns (self : BenchDrawing.t F) panels y scale :
  exists m, (m <= 2 * List.length panels)%nat /\
    forall sel,
      Drawn.count sel
        (BenchDrawing.svg (fst (BenchDrawing.draw_flat_patterns self panels y scale)))
      = (Drawn.count sel (BenchDrawing.svg self)
         + Drawn.weight sel Drawn.KRect (List.length panels)
         + Drawn.weight sel Drawn.KCircle (Drawn.hole_count panels)
         + Drawn.weight sel Drawn.KText
             (2 + 2 * List.length panels + Drawn.hole_count panels)
         + Drawn.weight sel Drawn.KLine (3 * m)
         + Drawn.weight sel Drawn.KLabel m)%nat.
Proof.
  unfold BenchDrawing.draw_flat_patterns. cbv zeta.
  match goal with |- context [fold_left ?g panels (?s1, ?xo, ?yp)] =>
    destruct (count_flat_pattern_loop (y + 35)%Z scale panels s1 xo yp) as (m & Hm & L);
    destruct (fold_left g panels (s1, xo, yp)) as [[s' xo'] yp']
  end.
  exists m. split; [exact Hm|]. intro sel.
  cbn [fst BenchDrawing.svg BenchDrawing.with_svg] in *. rewrite L.
  unfold SVGDrawing.text. rewrite !count_add. cbn [Drawn.kind_of].
  unfold Drawn.weight.
  destruct (sel Drawn.KRect), (sel Drawn.KCircle), (sel Drawn.KText),
    (sel Drawn.KLine), (sel Drawn.KLabel); lia.
Qed.
End FlatPatternCounts.

(* ------------------------------------------------------------------ *)
(** ** The drawing steps *)

Section StepFacts.
Context {F : Type} {A : Arith F} {M : Libm F} {Fm : Format F}.

Lemma extends_trans (P : SVGDrawing.element F -> Prop) (s1 s2 s3 : SVGDrawing.t F) :
  Drawn.extends P s1 s2 -> Drawn.extends P s2 s3 -> Drawn.extends P s1 s3.
Proof.
  intros (n1 & (E1 & D1 & W1 & H1) & F1) (n2 & (E2 & D2 & W2 & H2) & F2).
  exists (n1 ++ n2). split; [|now apply Forall_app].
  repeat split; try congruence. now rewrite E2, E1, app_assoc.
Qed.

Lemma bench_extends_trans (P : SVGDrawing.element F -> Prop) (b1 b2 b3 : BenchDrawing.t F) :
  Drawn.bench_extends P b1 b2 -> Drawn.bench_extends P b2 b3 ->
  Drawn.bench_extends P b1 b3.
Proof.
  intros [N1 E1] [N2 E2]. split; [congruence|]. now apply extends_trans with (BenchDrawing.svg b2).
Qed.

Lemma bench_extends_In (P : SVGDrawing.element F -> Prop) (b b' : BenchDrawing.t F)
    (e : SVGDrawing.element F) :
  Drawn.bench_extends P b b' ->
  In e (SVGDrawing.elements (BenchDrawing.svg b)) ->
  In e (SVGDrawing.elements (BenchDrawing.svg b')).
Proof.
  intros [_ (new & (E & _) & _)] H. rewrite E. apply in_or_app. now left.
Qed.

Lemma count_all (s : SVGDrawing.t F) :
  Drawn.count (fun _ => true) s = List.length (SVGDrawing.elements s).
Proof.
  unfold Drawn.count. f_equal.
  induction (SVGDrawing.elements s) as [|e l IH]; cbn; congruence.
Qed.

Lemma bounding_box_None (panels : list (Panel.t F)) :
  BenchDrawing.bounding_box panels = None <-> panels = [].
Proof.
  pose proof (bounding_box_scans panels) as S.
  destruct panels as [|p l]; [tauto|].
  destruct S as (bb & E & _). rewrite E. split; discriminate.
Qed.

Lemma anything_other (e : SVGDrawing.element F) :
  Drawn.kind_of e <> Drawn.KRect -> Drawn.anything e.
Proof. intros _. exact I. Qed.

Lemma draw_flat_patterns_extends (self : BenchDrawing.t F) panels y scale :
  Drawn.bench_extends Drawn.anything self
    (fst (BenchDrawing.draw_flat_patterns self panels y scale)).
Proof.
  apply (draw_flat_patterns_extends_with Drawn.anything anything_other (fun _ _ => True));
    try exact I; intros; cbv zeta; try exact I.
  now destruct (BenchDrawing.past_limit _).
Qed.

Lemma draw_all_extends (self : BenchDrawing.t F) (panels : list (Panel.t F)) :
  match BenchDrawing.draw_all self panels with
  | Returned self' _ | Raised self' _ => Drawn.bench_extends Drawn.anything self self'
  end.
Proof.
  unfold BenchDrawing.draw_all.
  pose proof (draw_title_block_extends Drawn.anything anything_other self 50) as H1.
  destruct (BenchDrawing.draw_title_block self 50) as [b1 y1]. cbn [fst] in H1.
  pose proof (draw_orthographic_views_extends Drawn.anything anything_other b1 panels y1 (lit 20 10)) as H2.
  destruct (BenchDrawing.draw_orthographic_views b1 panels y1 (lit 20 10)) as [b2 y2|b2 e];
    [|now apply bench_extends_trans with b1].
  pose proof (draw_isometric_view_extends Drawn.anything anything_other b2 panels y2 (lit 25 10)) as H3.
  destruct (BenchDrawing.draw_isometric_view b2 panels y2 (lit 25 10)) as [b3 y3].
  pose proof (draw_exploded_view_extends Drawn.anything anything_other b3 panels y3 (lit 25 10) (lit 50 10)) as H4.
  destruct (BenchDrawing.draw_exploded_view b3 panels y3 (lit 25 10) (lit 50 10)) as [b4 y4].
  pose proof (draw_flat_patterns_extends b4 panels y4 (lit 15 10)) as H5.
  destruct (BenchDrawing.draw_flat_patterns b4 panels y4 (lit 15 10)) as [b5 y5].
  cbn [fst] in *.
  exact (bench_extends_trans (bench_extends_trans (bench_extends_trans
           (bench_extends_trans H1 H2) H3) H4) H5).
Qed.

(** X1: every drawing step only appends: whatever the panels and
    arguments, the elements already in the drawing stay where they are, in
    order, and the marker definitions, the page size and the concept name
    are not touched; this holds for the title block, the three view
    sections, the flat patterns and the whole sequence, also when the
    orthographic step raises. *)
Theorem drawing_steps_only_append (self : BenchDrawing.t F)
    (panels : list (Panel.t F)) (y_offset : Z) (scale explode_distance : F) :
  let kept self' := Drawn.bench_extends (fun _ => True) self self' in
  kept (fst (BenchDrawing.draw_title_block self y_offset))
  /\ match BenchDrawing.draw_orthographic_views self panels y_offset scale with
     | Returned self' _ | Raised self' _ => kept self'
     end
  /\ kept (fst (BenchDrawing.draw_isometric_view self panels y_offset scale))
  /\ kept (fst (BenchDrawing.draw_exploded_view self panels y_offset scale explode_distance))
  /\ kept (fst (BenchDrawing.draw_flat_patterns self panels y_offset scale))
  /\ match BenchDrawing.draw_all self panels with
     | Returned self' _ | Raised self' _ => kept self'
     end.
Proof.
  cbv zeta. refine (conj _ (conj _ (conj _ (conj _ (conj _ _))))).
  - apply (draw_title_block_extends Drawn.anything anything_other).
  - apply (draw_orthographic_views_extends Drawn.anything anything_other).
  - apply (draw_isometric_view_extends Drawn.anything anything_other).
  - apply (draw_exploded_view_extends Drawn.anything anything_other).
  - apply draw_flat_patterns_extends.
  - apply draw_all_extends.
Qed.

Lemma count_draw_orthographic_views (sel : Drawn.kind -> bool) (self self' : BenchDrawing.t F)
    (panels : list (Panel.t F)) (y y' : Z) (scale : F) :
  BenchDrawing.draw_orthographic_views self panels y scale = Returned self' y' ->
  y' = (y + 315)%Z
  /\ Drawn.count sel (BenchDrawing.svg self')
     = (Drawn.count sel (BenchDrawing.svg self) + Drawn.weight sel Drawn.KText 4
        + Drawn.weight sel Drawn.KPolygon (3 * List.length panels)
        + Drawn.weight sel Drawn.KCircle (Drawn.hole_count panels))%nat.
Proof.
  unfold BenchDrawing.draw_orthographic_views. cbv zeta.
  destruct (BenchDrawing.bounding_box panels) as [bb|]; [|discriminate].
  intros [= <- <-]. split; [lia|].
  cbn [BenchDrawing.svg BenchDrawing.with_svg].
  rewrite count_draw_views. unfold SVGDrawing.text. rewrite !count_add.
  cbn [Drawn.kind_of]. unfold Drawn.weight. destruct (sel Drawn.KText); lia.
Qed.

(** How [draw_orthographic_views] ends: it raises for the empty list only,
    with its caption drawn; otherwise it returns [y_offset + 315]. *)
Lemma draw_orthographic_views_outcome (self : BenchDrawing.t F)
    (panels : list (Panel.t F)) (y_offset : Z) (scale : F) :
  match BenchDrawing.draw_orthographic_views self panels y_offset scale with
  | Raised self' e =>
      panels = [] /\ e = ValueError
      /\ SVGDrawing.elements (BenchDrawing.svg self')
         = SVGDrawing.elements (BenchDrawing.svg self)
           ++ [SVGDrawing.Text (of_Z 50) (of_Z y_offset) "ORTHOGRAPHIC VIEWS"
                               12 "start" "normal" "black"]
  | Returned self' y' => panels <> [] /\ y' = (y_offset + 315)%Z
  end.
Proof.
  destruct (BenchDrawing.draw_orthographic_views self panels y_offset scale)
    as [self' y'|self' e] eqn:E.
  - split; [intros ->; discriminate E|].
    exact (proj1 (@count_draw_orthographic_views (fun _ => true) self self' panels
                    y_offset y' scale E)).
  - unfold BenchDrawing.draw_orthographic_views in E. cbv zeta in E.
    destruct (BenchDrawing.bounding_box panels) as [bb|] eqn:B; [discriminate|].
    injection E as <- <-. apply bounding_box_None in B. repeat split; assumption.
Qed.

Lemma draw_isometric_view_returns (self : BenchDrawing.t F)
    (panels : list (Panel.t F)) (y_offset : Z) (scale : F) :
  snd (BenchDrawing.draw_isometric_view self panels y_offset scale) = (y_offset + 345)%Z.
Proof. cbn. lia. Qed.

Lemma draw_exploded_view_returns (self : BenchDrawing.t F)
    (panels : list (Panel.t F)) (y_offset : Z) (scale explode_distance : F) :
  snd (BenchDrawing.draw_exploded_view self panels y_offset scale explode_distance)
  = (y_offset + 345)%Z.
Proof. cbn. lia. Qed.

(** X2: [draw_orthographic_views] raises [ValueError] exactly when the
    panel list is empty, leaving only its section caption in the drawing;
    otherwise it returns [y_offset + 315] and has added four captions,
    three polygons per panel (one per view), one circle per hole (top view
    only) and nothing else. *)
Theorem draw_orthographic_views_inventory (self : BenchDrawing.t F)
    (panels : list (Panel.t F)) (y_offset : Z) (scale : F) :
  let before k := Drawn.count (Drawn.is_kind k) (BenchDrawing.svg self) in
  match BenchDrawing.draw_orthographic_views self panels y_offset scale with
  | Raised self' e =>
      panels = [] /\ e = ValueError
      /\ SVGDrawing.elements (BenchDrawing.svg self')
         = SVGDrawing.elements (BenchDrawing.svg self)
           ++ [SVGDrawing.Text (of_Z 50) (of_Z y_offset) "ORTHOGRAPHIC VIEWS"
                               12 "start" "normal" "black"]
  | Returned self' y' =>
      let after k := Drawn.count (Drawn.is_kind k) (BenchDrawing.svg self') in
      panels <> [] /\ y' = (y_offset + 315)%Z
      /\ after Drawn.KText = (before Drawn.KText + 4)%nat
      /\ after Drawn.KPolygon = (before Drawn.KPolygon + 3 * List.length panels)%nat
      /\ after Drawn.KCircle = (before Drawn.KCircle + Drawn.hole_count panels)%nat
      /\ List.length (SVGDrawing.elements (BenchDrawing.svg self'))
         = (List.length (SVGDrawing.elements (BenchDrawing.svg self))
            + 4 + 3 * List.length panels + Drawn.hole_count panels)%nat
  end.
Proof.
  cbv zeta.
  destruct (BenchDrawing.draw_orthographic_views self panels y_offset scale)
    as [self' y'|self' e] eqn:E.
  - assert (Hne : panels <> []).
    { intros ->. discriminate E. }
    split; [exact Hne|].
    pose proof (fun sel => @count_draw_orthographic_views sel self self' panels
                             y_offset y' scale E) as C.
    split; [exact (proj1 (C (fun _ => true)))|].
    rewrite <- !count_all, !(fun sel => proj2 (C sel)). cbn. repeat split; lia.
  - unfold BenchDrawing.draw_orthographic_views in E. cbv zeta in E.
    destruct (BenchDrawing.bounding_box panels) as [bb|] eqn:B; [discriminate|].
    injection E as <- <-. apply bounding_box_None in B. repeat split; assumption.
Qed.

(** X3: [draw_isometric_view] returns [y_offset + 345] and adds three
    polygons per panel and one legend text per panel besides the heading
    and the "Materials" caption, and nothing else; an empty list gives the
    two captions alone. *)
Theorem draw_isometric_view_inventory (self : BenchDrawing.t F)
    (panels : list (Panel.t F)) (y_offset : Z) (scale : F) :
  let result := BenchDrawing.draw_isometric_view self panels y_offset scale in
  let before k := Drawn.count (Drawn.is_kind k) (BenchDrawing.svg self) in
  let after k := Drawn.count (Drawn.is_kind k) (BenchDrawing.svg (fst result)) in
  snd result = (y_offset + 345)%Z
  /\ after Drawn.KText = (before Drawn.KText + 2 + List.length panels)%nat
  /\ after Drawn.KPolygon = (before Drawn.KPolygon + 3 * List.length panels)%nat
  /\ List.length (SVGDrawing.elements (BenchDrawing.svg (fst result)))
     = (List.length (SVGDrawing.elements (BenchDrawing.svg self))
        + 2 + 4 * List.length panels)%nat.
Proof.
  cbv zeta. split; [cbn; lia|].
  rewrite <- !count_all, !count_draw_isometric_view. cbn. repeat split; lia.
Qed.

(** X4: [draw_exploded_view] returns [y_offset + 345] and adds two
    polygons and one label per panel, the heading, and one dashed line per
    pair of neighbours: [len(panels) - 1] lines, none for an empty or
    one-panel list. *)
Theorem draw_exploded_view_inventory (self : BenchDrawing.t F)
    (panels : list (Panel.t F)) (y_offset : Z) (scale explode_distance : F) :
  let result := BenchDrawing.draw_exploded_view self panels y_offset scale
                  explode_distance in
  let before k := Drawn.count (Drawn.is_kind k) (BenchDrawing.svg self) in
  let after k := Drawn.count (Drawn.is_kind k) (BenchDrawing.svg (fst result)) in
  snd result = (y_offset + 345)%Z
  /\ after Drawn.KText = (before Drawn.KText + 1 + List.length panels)%nat
  /\ after Drawn.KPolygon = (before Drawn.KPolygon + 2 * List.length panels)%nat
  /\ after Drawn.KLine = (before Drawn.KLine + (List.length panels - 1))%nat
  /\ List.length (SVGDrawing.elements (BenchDrawing.svg (fst result)))
     = (List.length (SVGDrawing.elements (BenchDrawing.svg self))
        + 1 + 3 * List.length panels + (List.length panels - 1))%nat.
Proof.
  cbv zeta. split; [cbn; lia|].
  rewrite <- !count_all, !count_draw_exploded_view. cbn. repeat split; lia.
Qed.

Lemma outline_other (e : SVGDrawing.element F) :
  Drawn.kind_of e <> Drawn.KRect -> Drawn.outline_in_page e.
Proof. destruct e; cbn; auto. intro H. now contradiction H. Qed.

(** X5: when the flat-pattern section starts at or above the limit
    ([y_offset + 35 <= 1400]), every panel outline is drawn in a column at
    [x = 100 + 400 k] and none starts below the 1400 line: after a panel
    that ends past the limit the next one opens a new column at the top.
    The section draws one outline per panel and one circle per hole.  Of
    the two dimension lines of a panel each is either skipped or drawn as
    three lines and one label, so for some [labels <= 2 * len(panels)]
    the section adds [labels] labels and [3 * labels] lines.  The calls of
    [svg.text] add [2 + 2 * len(panels) + holes] texts, and the [<text>]
    elements added are these and the labels. *)
Theorem flat_patterns_stay_in_page (self : BenchDrawing.t F)
    (panels : list (Panel.t F)) (y_offset : Z) (scale : F) :
  (y_offset + 35 <= 1400)%Z ->
  let result := BenchDrawing.draw_flat_patterns self panels y_offset scale in
  let before k := Drawn.count (Drawn.is_kind k) (BenchDrawing.svg self) in
  let after k := Drawn.count (Drawn.is_kind k) (BenchDrawing.svg (fst result)) in
  Drawn.bench_extends Drawn.outline_in_page self (fst result)
  /\ after Drawn.KRect = (before Drawn.KRect + List.length panels)%nat
  /\ after Drawn.KCircle = (before Drawn.KCircle + Drawn.hole_count panels)%nat
  /\ exists labels : nat,
       (labels <= 2 * List.length panels)%nat
       /\ after Drawn.KLabel = (before Drawn.KLabel + labels)%nat
       /\ after Drawn.KLine = (before Drawn.KLine + 3 * labels)%nat
       /\ after Drawn.KText
          = (before Drawn.KText + 2 + 2 * List.length panels
             + Drawn.hole_count panels)%nat
       /\ Drawn.count Drawn.is_text_markup (BenchDrawing.svg (fst result))
          = (Drawn.count Drawn.is_text_markup (BenchDrawing.svg self)
             + 2 + 2 * List.length panels + Drawn.hole_count panels + labels)%nat.
Proof.
  intro Hy. cbv zeta. split.
  - apply (draw_flat_patterns_extends_with Drawn.outline_in_page outline_other
             (fun xo yp => (exists k, (0 <= k)%Z /\ xo = (100 + 400 * k)%Z)
                           /\ BenchDrawing.past_limit yp = false)).
    + intros xo yp w h fill stroke sw op [(k & Hk & ->) Hp]. cbn. split.
      * now exists k.
      * destruct yp as [n|f]; cbn in *; [left; exists n; split; [lia|reflexivity]|now right].
    + intros xo yp ph [(k & Hk & ->) Hp]. cbv zeta.
      destruct (BenchDrawing.past_limit (inr _)) eqn:E.
      * split; [exists (k + 1)%Z; split; lia|]. cbn. lia.
      * split; [now exists k|reflexivity].
    + split; [exists 0%Z; split; lia|]. cbn. lia.
  - destruct (count_draw_flat_patterns self panels y_offset scale) as (m & Hm & L).
    split; [rewrite L; cbn; lia|]. split; [rewrite L; cbn; lia|].
    exists m. split; [exact Hm|].
    repeat split; rewrite L; cbn; lia.
Qed.

Lemma extends_first_In (P : SVGDrawing.element F -> Prop) (s s' : SVGDrawing.t F)
    (e : SVGDrawing.element F) :
  Drawn.extends P (SVGDrawing.add_element s e) s' -> In e (SVGDrawing.elements s').
Proof.
  intros (new & (E & _) & _). rewrite E. cbn. rewrite <- app_assoc.
  apply in_or_app. right. now left.
Qed.

Lemma heading_in_orthographic (self self' : BenchDrawing.t F) panels y y' scale :
  BenchDrawing.draw_orthographic_views self panels y scale = Returned self' y' ->
  In (SVGDrawing.Text (of_Z 50) (of_Z y) "ORTHOGRAPHIC VIEWS" 12 "start" "normal" "black")
     (SVGDrawing.elements (BenchDrawing.svg self')).
Proof.
  unfold BenchDrawing.draw_orthographic_views. cbv zeta.
  destruct (BenchDrawing.bounding_box panels) as [bb|]; [|discriminate].
  intros [= <- _]. cbn [BenchDrawing.svg BenchDrawing.with_svg].
  pose proof anything_other as HP.
  apply (@extends_first_In Drawn.anything (BenchDrawing.svg self)).
  unfold BenchDrawing.draw_views, BenchDrawing.top_view_panel,
    BenchDrawing.front_view_panel, BenchDrawing.side_view_panel. extends_tac.
Qed.

Lemma heading_in_isometric (self : BenchDrawing.t F) panels y scale :
  In (SVGDrawing.Text (of_Z 50) (of_Z y) "ISOMETRIC VIEW" 12 "start" "normal" "black")
     (SVGDrawing.elements
        (BenchDrawing.svg (fst (BenchDrawing.draw_isometric_view self panels y scale)))).
Proof.
  unfold BenchDrawing.draw_isometric_view.
  cbn [fst BenchDrawing.svg BenchDrawing.with_svg].
  pose proof anything_other as HP.
  apply (@extends_first_In Drawn.anything (BenchDrawing.svg self)).
  unfold BenchDrawing.isometric_panel_faces. extends_tac.
  unfold BenchDrawing.material_note. destruct x. extends_tac.
Qed.

Lemma heading_in_exploded (self : BenchDrawing.t F) panels y scale D :
  In (SVGDrawing.Text (of_Z 50) (of_Z y) "EXPLODED ASSEMBLY" 12 "start" "normal" "black")
     (SVGDrawing.elements
        (BenchDrawing.svg (fst (BenchDrawing.draw_exploded_view self panels y scale D)))).
Proof.
  unfold BenchDrawing.draw_exploded_view.
  cbn [fst BenchDrawing.svg BenchDrawing.with_svg].
  pose proof anything_other as HP.
  apply (@extends_first_In Drawn.anything (BenchDrawing.svg self)).
  unfold BenchDrawing.exploded_panel_faces. extends_tac.
  unfold BenchDrawing.assembly_arrow. destruct x. extends_tac.
Qed.

Lemma heading_in_flat_patterns (self : BenchDrawing.t F) panels y scale :
  In (SVGDrawing.Text (of_Z 50) (of_Z y) "FLAT PATTERNS" 12 "start" "normal" "black")
     (SVGDrawing.elements
        (BenchDrawing.svg (fst (BenchDrawing.draw_flat_patterns self panels y scale)))).
Proof.
  unfold BenchDrawing.draw_flat_patterns. cbv zeta.
  pose proof anything_other as HP.
  match goal with |- context [fold_left ?g panels (?s1, ?xo, ?yp)] =>
    pose proof (@flat_pattern_loop_extends F A M Fm Drawn.anything anything_other
                  (fun _ _ => True) (y + 35)%Z scale
                  (SVGDrawing.add_element (BenchDrawing.svg self)
                     (SVGDrawing.Text (of_Z 50) (of_Z y) "FLAT PATTERNS" 12 "start"
                        "normal" "black"))
                  (fun _ _ _ _ _ _ _ _ _ => I)
                  (fun _ _ ph _ => match BenchDrawing.past_limit _ as b
                                         return (if b then True else True)
                                   with true => I | false => I end)
                  panels s1 xo yp I) as L;
    destruct (fold_left g panels (s1, xo, yp)) as [[s' xo'] yp']
  end.
  cbn [fst BenchDrawing.svg BenchDrawing.with_svg] in *.
  apply (@extends_first_In Drawn.anything (BenchDrawing.svg self)).
  apply L. extends_tac.
Qed.

(** X6: the drawing sequence of the main block stops with [ValueError]
    exactly for an empty panel list, after the title block and the first
    caption; for any other list it completes, and the four section headings
    sit at y = 100, 415, 760 and 1105 whatever the panels are. *)
Theorem draw_all_sections (self : BenchDrawing.t F) (panels : list (Panel.t F)) :
  let heading y text :=
    SVGDrawing.Text (of_Z 50) (of_Z y) text 12 "start" "normal" "black" in
  match BenchDrawing.draw_all self panels with
  | Raised self' e =>
      panels = [] /\ e = ValueError
      /\ SVGDrawing.elements (BenchDrawing.svg self')
         = SVGDrawing.elements (BenchDrawing.svg self)
           ++ [ SVGDrawing.Text (of_Z 50) (of_Z 50) (BenchDrawing.concept_name self)
                                18 "start" "normal" "black";
                heading 72%Z "Sheet Metal Bench - SendCutSend Fabrication";
                SVGDrawing.Line (of_Z 50) (of_Z 82) (of_Z 1150) (of_Z 82) "black"
                                (lit 5 10) (lit 1 1) None None None;
                heading 100%Z "ORTHOGRAPHIC VIEWS" ]
  | Returned self' _ =>
      let drawn := SVGDrawing.elements (BenchDrawing.svg self') in
      panels <> []
      /\ In (heading 100%Z "ORTHOGRAPHIC VIEWS") drawn
      /\ In (heading 415%Z "ISOMETRIC VIEW") drawn
      /\ In (heading 760%Z "EXPLODED ASSEMBLY") drawn
      /\ In (heading 1105%Z "FLAT PATTERNS") drawn
  end.
Proof.
  cbv zeta. unfold BenchDrawing.draw_all, BenchDrawing.draw_title_block.
  cbv beta iota zeta.
  match goal with |- context [BenchDrawing.draw_orthographic_views ?b ?p ?y ?sc] =>
    set (b1 := b);
    pose proof (draw_orthographic_views_outcome b1 p y sc) as I2;
    pose proof (@heading_in_orthographic b1) as H2;
    destruct (BenchDrawing.draw_orthographic_views b1 p y sc) as [b2 y2|b2 e] eqn:E2
  end; cbv zeta in I2.
  - destruct I2 as (Hne & ->). specialize (H2 _ _ _ _ _ E2).
    match goal with |- context [BenchDrawing.draw_isometric_view ?b ?p ?y ?sc] =>
      pose proof (heading_in_isometric b p y sc) as H3;
      pose proof (draw_isometric_view_extends Drawn.anything anything_other b p y sc) as X3;
      pose proof (draw_isometric_view_returns b p y sc) as Y3;
      destruct (BenchDrawing.draw_isometric_view b p y sc) as [b3 y3]
    end.
    cbn [fst snd] in *. subst y3.
    match goal with |- context [BenchDrawing.draw_exploded_view ?b ?p ?y ?sc ?d] =>
      pose proof (heading_in_exploded b p y sc d) as H4;
      pose proof (draw_exploded_view_extends Drawn.anything anything_other b p y sc d) as X4;
      pose proof (draw_exploded_view_returns b p y sc d) as Y4;
      destruct (BenchDrawing.draw_exploded_view b p y sc d) as [b4 y4]
    end.
    cbn [fst snd] in *. subst y4.
    match goal with |- context [BenchDrawing.draw_flat_patterns ?b ?p ?y ?sc] =>
      pose proof (heading_in_flat_patterns b p y sc) as H5;
      pose proof (draw_flat_patterns_extends b p y sc) as X5;
      destruct (BenchDrawing.draw_flat_patterns b p y sc) as [b5 y5]
    end.
    cbn [fst snd] in *.
    split; [exact Hne|]. repeat split.
    + eapply bench_extends_In; [exact X5|]. eapply bench_extends_In; [exact X4|].
      eapply bench_extends_In; [exact X3|]. exact H2.
    + eapply bench_extends_In; [exact X5|]. eapply bench_extends_In; [exact X4|]. exact H3.
    + eapply bench_extends_In; [exact X5|]. exact H4.
    + exact H5.
  - destruct I2 as (Hp & He & Hel). repeat split; try assumption.
    rewrite Hel. subst b1. cbn. rewrite <- !app_assoc. reflexivity.
Qed.
End StepFacts.

(* ------------------------------------------------------------------ *)
(** ** The interactive viewer *)

Section ViewerFacts.
Context {F : Type} {A : Arith F}.

Lemma mesh_traces_None (suffix : string) (visible : bool) (panels : list (Mesh.t F)) :
  Viewer.mesh_traces suffix visible panels = None
  <-> exists m, In m panels /\ Mesh.name m = None.
Proof.
  induction panels as [|m l IH]; cbn.
  - split; [discriminate|]. intros (m & [] & _).
  - destruct (Mesh.name m) as [n|] eqn:En.
    + destruct (Viewer.mesh_traces suffix visible l) as [ts|].
      * split; [discriminate|]. intros (m' & [<-|Hin] & Hn); [congruence|].
        assert (Y : Some ts = None) by (apply IH; eauto).
        discriminate.
      * split; [|reflexivity]. intros _. destruct (proj1 IH eq_refl) as (m' & Hin & Hn).
        exists m'. auto.
    + split; [|reflexivity]. intros _. exists m. auto.
Qed.

Lemma mesh_traces_visible (suffix : string) (visible : bool)
    (panels : list (Mesh.t F)) (ts : list (Viewer.trace F)) :
  Viewer.mesh_traces suffix visible panels = Some ts ->
  map Viewer.trace_visible ts = repeat visible (List.length panels).
Proof.
  revert ts. induction panels as [|m l IH]; intros ts; cbn.
  - now intros [= <-].
  - destruct (Mesh.name m); [|discriminate].
    destruct (Viewer.mesh_traces suffix visible l) as [ts'|]; [|discriminate].
    intros [= <-]. cbn. now rewrite (IH ts' eq_refl).
Qed.

Lemma connection_lines_hidden (exploded_panels : list (Mesh.t F)) :
  map Viewer.trace_visible (Viewer.connection_lines exploded_panels)
  = repeat false (List.length (Viewer.connection_lines exploded_panels))
  /\ List.length (Viewer.connection_lines exploded_panels)
     = (if Nat.eqb (List.length exploded_panels) 3 then 2 else 0)%nat.
Proof.
  rewrite connection_lines_cases.
  destruct exploded_panels as [|e0 [|e1 [|e2 [|e3 r]]]]; split; reflexivity.
Qed.

Lemma map_negb_repeat (b : bool) (n : nat) :
  map negb (repeat b n) = repeat (negb b) n.
Proof. induction n; cbn; congruence. Qed.

Lemma append_empty_r (n : string) : (n ++ "")%string = n.
Proof. induction n as [|c n IH]; cbn; [reflexivity | now rewrite IH]. Qed.

Lemma mesh_traces_names (suffix : string) (visible : bool)
    (panels : list (Mesh.t F)) (ts : list (Viewer.trace F)) :
  Viewer.mesh_traces suffix visible panels = Some ts ->
  (forall m, In m panels -> exists n, Mesh.name m = Some n)
  /\ map Viewer.trace_name ts
     = map (fun m => option_map (fun n => (n ++ suffix)%string) (Mesh.name m)) panels.
Proof.
  revert ts. induction panels as [|m l IH]; intros ts; cbn.
  - intros [= <-]. split; [intros m []|reflexivity].
  - destruct (Mesh.name m) as [n|] eqn:En; [|discriminate].
    destruct (Viewer.mesh_traces suffix visible l) as [ts'|]; [|discriminate].
    intros [= <-]. destruct (IH ts' eq_refl) as [Hall Hn]. split.
    + intros m' [<-|Hin]; [now exists n|now apply Hall].
    + cbn. now rewrite Hn.
Qed.

(** X7: [create_interactive_viewer] returns a figure only if every
    assembled and every exploded panel dictionary has a ['name'] entry; in
    a returned figure the traces carry, in order, the names of the
    assembled panels, the names of the exploded panels followed by
    [" (Exploded)"], and no name for the connection lines.  The dictionary
    [create_box_mesh] returns has no ['name'] entry, so no figure is
    returned when one is passed on as it is. *)
Theorem create_interactive_viewer_names (concept_name : string)
    (assembled_panels exploded_panels : list (Mesh.t F)) (fig : Viewer.figure F) :
  Viewer.create_interactive_viewer concept_name assembled_panels exploded_panels
  = inr fig ->
  (forall m, In m (assembled_panels ++ exploded_panels) ->
     exists n, Mesh.name m = Some n)
  /\ map Viewer.trace_name (Viewer.data fig)
     = map Mesh.name assembled_panels
       ++ map (fun m => option_map (fun n => (n ++ " (Exploded)")%string) (Mesh.name m))
              exploded_panels
       ++ repeat None (if Nat.eqb (List.length exploded_panels) 3 then 2 else 0)%nat
  /\ (forall x y z width depth thickness color,
        ~ In (Viewer.create_box_mesh x y z width depth thickness color)
             (assembled_panels ++ exploded_panels)).
Proof.
  unfold Viewer.create_interactive_viewer.
  destruct (Viewer.mesh_traces "" true assembled_panels) as [ta|] eqn:Ea; [|discriminate].
  destruct (Viewer.mesh_traces " (Exploded)" false exploded_panels) as [te|] eqn:Ee;
    [|discriminate].
  intros [= <-]. cbn [Viewer.data].
  destruct (mesh_traces_names _ _ _ Ea) as [Ha Na].
  destruct (mesh_traces_names _ _ _ Ee) as [He Ne].
  assert (Hall : forall m, In m (assembled_panels ++ exploded_panels) ->
                   exists n, Mesh.name m = Some n).
  { intros m Hin. apply in_app_or in Hin. destruct Hin; auto. }
  split; [exact Hall|]. split.
  - rewrite !map_app, Na, Ne. f_equal.
    + apply map_ext. intro m. destruct (Mesh.name m) as [n|]; cbn; [|reflexivity].
      now rewrite append_empty_r.
    + f_equal. rewrite connection_lines_cases.
      destruct exploded_panels as [|e0 [|e1 [|e2 [|e3 r]]]]; reflexivity.
  - intros x y z width depth thickness color Hin.
    destruct (Hall _ Hin) as [n Hn]. discriminate.
Qed.

(** X8: in the figure [create_interactive_viewer] returns, the traces
    are the assembled meshes, the exploded meshes and two connection lines
    when there are exactly 3 exploded panels (none otherwise); both button
    vectors have one flag per trace; the traces are created in the
    assembled state, and the exploded vector is its flag-by-flag negation. *)
Theorem create_interactive_viewer_visibility (concept_name : string)
    (assembled_panels exploded_panels : list (Mesh.t F)) (fig : Viewer.figure F) :
  Viewer.create_interactive_viewer concept_name assembled_panels exploded_panels
  = inr fig ->
  List.length (Viewer.data fig)
  = (List.length assembled_panels + List.length exploded_panels
     + (if Nat.eqb (List.length exploded_panels) 3 then 2 else 0))%nat
  /\ List.length (Viewer.assembled_visible fig) = List.length (Viewer.data fig)
  /\ List.length (Viewer.exploded_visible fig) = List.length (Viewer.data fig)
  /\ map Viewer.trace_visible (Viewer.data fig) = Viewer.assembled_visible fig
  /\ Viewer.exploded_visible fig = map negb (Viewer.assembled_visible fig).
Proof.
  unfold Viewer.create_interactive_viewer.
  destruct (Viewer.mesh_traces "" true assembled_panels) as [ta|] eqn:Ea; [|discriminate].
  destruct (Viewer.mesh_traces " (Exploded)" false exploded_panels) as [te|] eqn:Ee;
    [|discriminate].
  intros [= <-]. cbn [Viewer.data Viewer.assembled_visible Viewer.exploded_visible].
  pose proof (proj2 (mesh_traces_no_line _ _ _ Ea)) as La.
  pose proof (proj2 (mesh_traces_no_line _ _ _ Ee)) as Le.
  destruct (connection_lines_hidden exploded_panels) as [Hv Hl].
  assert (N : (List.length (ta ++ te ++ Viewer.connection_lines exploded_panels)
               - List.length assembled_panels - List.length exploded_panels)%nat
              = List.length (Viewer.connection_lines exploded_panels)).
  { rewrite !length_app, La, Le. lia. }
  rewrite N. repeat split.
  - rewrite !length_app, La, Le, Hl. lia.
  - rewrite !length_app, !repeat_length, La, Le. lia.
  - rewrite !length_app, !repeat_length, La, Le. lia.
  - rewrite !map_app, (mesh_traces_visible _ _ _ Ea), (mesh_traces_visible _ _ _ Ee), Hv.
    reflexivity.
  - rewrite !map_app, !map_negb_repeat. reflexivity.
Qed.

Lemma py_index_Some {X : Type} (l : list X) (i : Z) :
  (exists x, Viewer.py_index l i = Some x)
  <-> (- Z.of_nat (List.length l) <= i < Z.of_nat (List.length l))%Z.
Proof.
  unfold Viewer.py_index. cbv zeta.
  destruct (Z.leb_spec 0 i).
  - destruct (Z.ltb_spec i (Z.of_nat (List.length l))).
    + split; [lia|]. intros _.
      destruct (nth_error l (Z.to_nat i)) as [x|] eqn:E; [now exists x|].
      apply nth_error_None in E. lia.
    + split; [intros [x Hx]; discriminate|lia].
  - destruct (Z.leb_spec (- Z.of_nat (List.length l)) i).
    + split; [lia|]. intros _.
      destruct (nth_error l (Z.to_nat (i + Z.of_nat (List.length l)))) as [x|] eqn:E;
        [now exists x|].
      apply nth_error_None in E. lia.
    + split; [intros [x Hx]; discriminate|lia].
Qed.

(** X9: for panel dictionaries whose ['vertices'] is an n-by-3 array,
    [add_connection_lines] returns exactly when every index of every
    connection is within [-len(panels), len(panels)), and then the traces
    added after those already there are, in order, the visible lines of
    all the connections, each joining the means of the two panels'
    vertices.  If not, it raises [IndexError] at the first connection [c]
    with an index outside that range, at some position [k]: the [k]
    connections before it are in range and their lines, and nothing else,
    have been added.  The mean of such an array has three entries, the ones
    a line reads. *)
Theorem add_connection_lines_index_error (fig : list (Viewer.trace F))
    (panels : list (Mesh.t F)) (connections : list (Z * Z)) :
  Forall Drawn.box_shaped panels ->
  (forall m, In m panels ->
     List.length (Viewer.mean_axis0 (Mesh.vertices m)) = 3%nat)
  /\
  match Viewer.add_connection_lines fig panels connections with
  | Viewer.LinesAdded data =>
      Forall (Drawn.in_range (List.length panels)) connections
      /\ exists new, data = fig ++ new
           /\ map Some new = map (Viewer.connection_trace panels) connections
           /\ List.length new = List.length connections
           /\ Forall (fun t => Viewer.is_line t = true /\ Viewer.trace_visible t = true) new
  | Viewer.IndexError data =>
      ~ Forall (Drawn.in_range (List.length panels)) connections
      /\ exists (k : nat) (c : Z * Z) new,
           nth_error connections k = Some c
           /\ ~ Drawn.in_range (List.length panels) c
           /\ Viewer.connection_trace panels c = None
           /\ Forall (Drawn.in_range (List.length panels)) (firstn k connections)
           /\ data = fig ++ new
           /\ map Some new = map (Viewer.connection_trace panels) (firstn k connections)
           /\ List.length new = k
           /\ Forall (fun t => Viewer.is_line t = true /\ Viewer.trace_visible t = true) new
  end.
Proof.
  intro Hshape. split.
  { intros m Hin. rewrite Forall_forall in Hshape.
    destruct (Hshape m Hin) as [Hne Hrows]. unfold Viewer.mean_axis0.
    rewrite length_map, length_seq.
    destruct (Mesh.vertices m) as [|row rows]; [congruence|].
    now inversion Hrows. }
  clear Hshape. revert fig. induction connections as [|[i1 i2] rest IH]; intro fig.
  - cbn. split; [constructor|]. exists []. rewrite app_nil_r. repeat split; constructor.
  - cbn [Viewer.add_connection_lines].
    pose proof (py_index_Some panels i1) as R1.
    pose proof (py_index_Some panels i2) as R2.
    assert (T : Viewer.connection_trace panels (i1, i2)
                = match Viewer.py_index panels i1, Viewer.py_index panels i2 with
                  | Some m1, Some m2 =>
                      Viewer.connection_trace panels (i1, i2)
                  | _, _ => None
                  end).
    { unfold Viewer.connection_trace.
      destruct (Viewer.py_index panels i1), (Viewer.py_index panels i2); reflexivity. }
    destruct (Viewer.py_index panels i1) as [m1|] eqn:E1.
    + destruct (Viewer.py_index panels i2) as [m2|] eqn:E2.
      * assert (Hr : Drawn.in_range (List.length panels) (i1, i2)).
        { split; [apply R1|apply R2]; eauto. }
        clear T.
        match goal with |- context [Viewer.add_connection_lines (fig ++ [?t]) _ _] =>
          assert (T : Viewer.connection_trace panels (i1, i2) = Some t)
            by (unfold Viewer.connection_trace; rewrite E1, E2; reflexivity);
          specialize (IH (fig ++ [t]));
          destruct (Viewer.add_connection_lines (fig ++ [t]) panels rest) as [data|data]
        end.
        -- destruct IH as (Hf & new & -> & Hm & Hl & Hn).
           split; [now constructor|]. eexists (_ :: new). rewrite <- app_assoc.
           split; [reflexivity|]. split; [cbn [map]; now rewrite T, Hm|].
           split; [cbn; lia|]. constructor; [split; reflexivity|exact Hn].
        -- destruct IH as (Hf & k & c & new & Hk & Hc & Hnone & Hfirst & -> & Hm & Hl & Hn).
           split; [intro H; inversion H; contradiction|].
           exists (S k), c. eexists (_ :: new). rewrite <- app_assoc.
           split; [exact Hk|]. split; [exact Hc|]. split; [exact Hnone|].
           split; [cbn; now constructor|]. split; [reflexivity|].
           split; [cbn [map firstn]; now rewrite T, Hm|].
           split; [cbn; lia|]. constructor; [split; reflexivity|exact Hn].
      * assert (Hbad : ~ Drawn.in_range (List.length panels) (i1, i2)).
        { intros [_ Hx]. apply R2 in Hx. destruct Hx. discriminate. }
        split; [intro H; inversion H; contradiction|].
        exists 0%nat, (i1, i2), []. rewrite app_nil_r.
        repeat split; try constructor; try exact Hbad; exact T.
    + assert (Hbad : ~ Drawn.in_range (List.length panels) (i1, i2)).
      { intros [Hx _]. apply R1 in Hx. destruct Hx. discriminate. }
      split; [intro H; inversion H; contradiction|].
      exists 0%nat, (i1, i2), []. rewrite app_nil_r.
      repeat split; try constructor; try exact Hbad; exact T.
Qed.
End ViewerFacts.

(* ------------------------------------------------------------------ *)
(** ** More on binary64 panels *)

(** X10: the bounding box is never inverted: on no axis is the upper
    bound below the lower bound, whatever the panels (negative dimensions
    and NaN included). *)
Theorem bounding_box_not_inverted (panels : list (Panel.t float))
    (bb : BenchDrawing.bbox float) :
  BenchDrawing.bounding_box panels = Some bb ->
  (BenchDrawing.max_x bb <? BenchDrawing.min_x bb)%float = false
  /\ (BenchDrawing.max_y bb <? BenchDrawing.min_y bb)%float = false
  /\ (BenchDrawing.max_z bb <? BenchDrawing.min_z bb)%float = false.
Proof.
  intro Hbb.
  destruct (bounding_box_fields panels Hbb) as (Hx1 & Hx2 & Hy1 & Hy2 & Hz1 & Hz2).
  apply (@py_min_spec float Binary64 float_ltb_irrefl float_ltb_trans) in Hx1, Hy1, Hz1.
  apply (@py_max_spec float Binary64 float_ltb_irrefl float_ltb_trans) in Hx2, Hy2, Hz2.
  repeat split.
  - apply (proj2 Hx2), (proj1 Hx1).
  - apply (proj2 Hy2), (proj1 Hy1).
  - apply (proj2 Hz2), (proj1 Hz1).
Qed.

Lemma float_mul_zero_r (d : float) :
  is_finite d = true -> exists s, Prim2SF (d * PrimFloat.zero)%float = S754_zero s.
Proof.
  intro H. rewrite mul_spec. change (Prim2SF PrimFloat.zero) with (S754_zero false).
  destruct (Prim2SF_finite_cases d H) as [[s E]|[s [m [e E]]]]; rewrite E; cbn; eauto.
Qed.

Lemma float_add_signed_zero_r (z o : float) (s : bool) :
  is_nan z = false -> Prim2SF o = S754_zero s ->
  PrimFloat.eqb (z + o)%float z = true.
Proof.
  unfold is_nan. intros H Ho. apply negb_false_iff in H.
  rewrite eqb_spec in H. rewrite eqb_spec, add_spec, Ho.
  destruct (Prim2SF z) as [sz|sz| |sz m e]; try exact H.
  destruct sz, s; reflexivity.
Qed.

(** X11: the panel at index [len(panels) // 2] is the pivot of the
    explosion: for every finite distance its derived copy is at a position
    that compares equal to the original (coordinates that are numbers). *)
Theorem explode_keeps_middle_panel (panels : list (Panel.t float)) (D : float)
    (p : Panel.t float) :
  is_finite D = true ->
  nth_error panels (List.length panels / 2) = Some p ->
  is_nan (Point3D.x (Panel.position p)) = false ->
  is_nan (Point3D.y (Panel.position p)) = false ->
  is_nan (Point3D.z (Panel.position p)) = false ->
  exists q,
    nth_error (BenchDrawing.explode_panels panels D) (List.length panels / 2) = Some q
    /\ Spec.same_but_position p q
    /\ Point3D.equal (Panel.position q) (Panel.position p) = true.
Proof.
  intros HD Hp Hx Hy Hz.
  destruct (explode_panels_shift panels D _ Hp) as (q & Hq & Hs & Hpos).
  exists q. split; [exact Hq|]. split; [exact Hs|].
  rewrite Hpos. unfold Point3D.equal. cbn [Point3D.x Point3D.y Point3D.z].
  rewrite Nat2Z.inj_div. change (Z.of_nat 2) with 2%Z. rewrite Z.sub_diag.
  change (@of_Z float Binary64 0) with PrimFloat.zero.
  change (@add float Binary64) with PrimFloat.add.
  change (@mul float Binary64) with PrimFloat.mul.
  change (@eqb float Binary64) with PrimFloat.eqb.
  destruct (float_mul_zero_r D HD) as [s Hs0].
  rewrite (@float_add_signed_zero_r _ PrimFloat.zero false Hx eq_refl).
  rewrite (@float_add_signed_zero_r _ PrimFloat.zero false Hy eq_refl).
  rewrite (@float_add_signed_zero_r _ _ s Hz Hs0). reflexivity.
Qed.

Lemma float_ltb_nan (a b : float) :
  is_nan b = true -> PrimFloat.ltb a b = false /\ PrimFloat.ltb b a = false.
Proof.
  intro H. rewrite !ltb_spec. unfold Prim2SF at 2 3. rewrite H.
  unfold SFltb. destruct (Prim2SF a); split; reflexivity.
Qed.

Lemma fold_keeps_nan (lt : float -> float -> bool) (r : list float) (best : float) :
  (forall item, lt item best = false) ->
  fold_left (fun best item => if lt item best then item else best) r best = best.
Proof.
  intro H. induction r as [|a r IH]; cbn; [reflexivity|]. now rewrite H.
Qed.

(** X12: [min] and [max] keep their first candidate when it is NaN: if
    the x position of the first panel is NaN, both X bounds of the box are
    that NaN, whatever the other panels are. *)
Theorem bounding_box_nan_first_position (p : Panel.t float)
    (rest : list (Panel.t float)) :
  is_nan (Point3D.x (Panel.position p)) = true ->
  exists bb, BenchDrawing.bounding_box (p :: rest) = Some bb
    /\ BenchDrawing.min_x bb = Point3D.x (Panel.position p)
    /\ BenchDrawing.max_x bb = Point3D.x (Panel.position p).
Proof.
  intro H. destruct (bounding_box_scans (p :: rest)) as (bb & E & Hmin & Hmax & _).
  exists bb. split; [exact E|].
  unfold BenchDrawing.all_corners in Hmin, Hmax.
  cbn [flat_map Panel.get_corners app map py_min py_max] in Hmin, Hmax.
  rewrite (fold_keeps_nan (fun a b => a <? b)%float) in Hmin
    by (intro; apply (@float_ltb_nan _ _ H)).
  rewrite (fold_keeps_nan (fun a b => b <? a)%float) in Hmax
    by (intro; apply (@float_ltb_nan _ _ H)).
  cbn [Point3D.x] in Hmin, Hmax. split; congruence.
Qed.

(* ------------------------------------------------------------------ *)
(** ** Instances on the concept 4 panels *)

Lemma flat_patterns_stay_in_page_witness :
  let self := BenchDrawing.mk "Concept 4: Thin Slab Legs" (SVGDrawing.init 1200 1600) in
  let result := BenchDrawing.draw_flat_patterns (M := libm_identity) (Fm := format_blank)
                  self (create_concept_4_slab_legs (F := float)) 1105 (lit 15 10) in
  Drawn.count (Drawn.is_kind Drawn.KRect) (BenchDrawing.svg (fst result))
  = (Drawn.count (Drawn.is_kind Drawn.KRect) (BenchDrawing.svg self) + 3)%nat.
Proof.
  cbv zeta.
  apply (@flat_patterns_stay_in_page float Binary64 libm_identity format_blank
           (BenchDrawing.mk "Concept 4: Thin Slab Legs" (SVGDrawing.init 1200 1600))
           create_concept_4_slab_legs 1105 (lit 15 10)).
  lia.
Defined.

Lemma create_interactive_viewer_names_witness :
  exists fig,
    Viewer.create_interactive_viewer "Concept 4: Thin Slab Legs"
      (Viewer.create_concept_4_assembled (F := float)) Viewer.create_concept_4_exploded
    = inr fig
    /\ map Viewer.trace_name (Viewer.data fig)
       = [ Some "Seat Panel"; Some "Left Leg"; Some "Right Leg";
           Some "Seat Panel (Exploded)"; Some "Left Leg (Exploded)";
           Some "Right Leg (Exploded)"; None; None ].
Proof.
  eexists. split; [reflexivity|].
  apply (@create_interactive_viewer_names float Binary64
           "Concept 4: Thin Slab Legs" Viewer.create_concept_4_assembled
           Viewer.create_concept_4_exploded).
  reflexivity.
Defined.

Lemma add_connection_lines_index_error_witness :
  Forall Drawn.box_shaped (Viewer.create_concept_4_exploded (F := float))
  /\ exists data,
       Viewer.add_connection_lines [] (Viewer.create_concept_4_exploded (F := float))
         [(0, 1); (-3, 2)]%Z
       = Viewer.LinesAdded data
       /\ map Some data
          = map (Viewer.connection_trace (Viewer.create_concept_4_exploded (F := float)))
                [(0, 1); (-3, 2)]%Z.
Proof.
  assert (W : Forall Drawn.box_shaped (Viewer.create_concept_4_exploded (F := float))).
  { repeat constructor; discriminate. }
  split; [exact W|].
  pose proof (@add_connection_lines_index_error float Binary64 []
                Viewer.create_concept_4_exploded [(0, 1); (-3, 2)]%Z W) as [_ H].
  destruct (Viewer.add_connection_lines [] (Viewer.create_concept_4_exploded (F := float))
              [(0, 1); (-3, 2)]%Z) as [data|data] eqn:E.
  - exists data. split; [reflexivity|].
    destruct H as (_ & new & -> & Hm & _). exact Hm.
  - exfalso. apply (proj1 H). repeat constructor; cbn; lia.
Defined.

Lemma create_interactive_viewer_visibility_witness :
  exists fig,
    Viewer.create_interactive_viewer "Concept 4: Thin Slab Legs"
      (Viewer.create_concept_4_assembled (F := float)) Viewer.create_concept_4_exploded
    = inr fig
    /\ List.length (Viewer.data fig) = 8%nat.
Proof.
  eexists. split; [reflexivity|].
  apply (@create_interactive_viewer_visibility float Binary64
           "Concept 4: Thin Slab Legs" Viewer.create_concept_4_assembled
           Viewer.create_concept_4_exploded).
  reflexivity.
Defined.

Lemma bounding_box_not_inverted_witness :
  exists bb, BenchDrawing.bounding_box two_panel_assembly = Some bb
    /\ (BenchDrawing.max_x bb <? BenchDrawing.min_x bb)%float = false.
Proof.
  eexists. split; [vm_compute; reflexivity|].
  apply (@bounding_box_not_inverted two_panel_assembly). vm_compute. reflexivity.
Defined.

Lemma explode_keeps_middle_panel_witness :
  exists q,
    nth_error (BenchDrawing.explode_panels (create_concept_4_slab_legs (F := float))
                 (lit 50 10)) 1 = Some q
    /\ Panel.name q = "Left Leg"
    /\ Point3D.equal (Panel.position q) (Point3D.mk (of_Z 0) (of_Z 0) (of_Z 0)) = true.
Proof.
  pose proof (@explode_keeps_middle_panel (create_concept_4_slab_legs (F := float))
                (lit 50 10)
                (Panel.mk "Left Leg" (lit 110 10) (lit 160 10) (lit 250 1000)
                   (Point3D.mk (of_Z 0) (of_Z 0) (of_Z 0))
                   [Point3D.mk (of_Z 2) (of_Z 14) (of_Z 0);
                    Point3D.mk (of_Z 2) (of_Z 14) (of_Z 0);
                    Point3D.mk (of_Z 9) (of_Z 14) (of_Z 0);
                    Point3D.mk (of_Z 9) (of_Z 14) (of_Z 0)]
                   "304 Stainless Steel")) as H.
  do 5 (lapply H; [clear H; intro H|vm_compute; reflexivity]).
  destruct H as (q & Hq & (Hn & _) & He).
  exists q. split; [exact Hq|]. split; [exact Hn|exact He].
Defined.

Lemma bounding_box_nan_first_position_witness :
  exists bb,
    BenchDrawing.bounding_box
      (Panel.mk "P" (of_Z 1) (of_Z 1) (of_Z 1)
                (Point3D.mk PrimFloat.nan (of_Z 0) (of_Z 0)) [] "304 Stainless"
       :: two_panel_assembly) = Some bb
    /\ BenchDrawing.min_x bb = PrimFloat.nan
    /\ BenchDrawing.max_x bb = PrimFloat.nan.
Proof.
  apply (@bounding_box_nan_first_position
           (Panel.mk "P" (of_Z 1) (of_Z 1) (of_Z 1)
              (Point3D.mk PrimFloat.nan (of_Z 0) (of_Z 0)) [] "304 Stainless")
           two_panel_assembly).
  reflexivity.
Defined.
